(** * SimpleDB: a shallow embedding of the relational-algebra evaluator

    Two near-identical evaluators live in [src/Project 1/]:
    [Fileread.py] and [newonetest.py].  Both keep the relations in a
    dictionary [self.relations] from a relation name to a record
    [{'attributes': [...], 'data': [[...], ...]}], where every value is a
    Python [str].  The dictionary is modelled as an association list in
    insertion order (the iteration order of a Python dict).

    Python exceptions become the [Raise] branch of a small error monad,
    [try/except Exception] becomes a match on it.  Python's recursion limit,
    which raises [RecursionError] (an [Exception]), is the fuel argument of
    the recursive evaluators.  [float(...)] parsing and comparison, and the
    iteration order of a Python [set], are kept abstract (Section
    variables). *)

From Stdlib Require Import Strings.String Strings.Ascii Bool List Arith Lia.
Import ListNotations.
Open Scope string_scope.
Open Scope list_scope.

(** ** Python exceptions and the error monad *)

Inductive exn :=
| ValueError
| IndexError
| TypeError
| AttributeError
| RecursionError.

Inductive result (A : Type) :=
| Ok (a : A)
| Raise (e : exn).
Arguments Ok {A} a.
Arguments Raise {A} e.

Definition bind {A B} (m : result A) (k : A -> result B) : result B :=
  match m with
  | Ok a => k a
  | Raise e => Raise e
  end.

Notation "x <- m ;; k" := (bind m (fun x => k))
  (at level 61, m at next level, right associativity).

(** [[f(x) for x in l]] where [f] may raise: evaluated left to right. *)
Fixpoint mapM {A B} (f : A -> result B) (l : list A) : result (list B) :=
  match l with
  | [] => Ok []
  | x :: l' => y <- f x ;; ys <- mapM f l' ;; Ok (y :: ys)
  end.

(** [[x for x in l if p(x)]] where [p] may raise. *)
Fixpoint filterM {A} (p : A -> result bool) (l : list A) : result (list A) :=
  match l with
  | [] => Ok []
  | x :: l' =>
      b <- p x ;; ys <- filterM p l' ;; Ok (if b then x :: ys else ys)
  end.

(** ** Python string methods on [str] *)

Module Py.

(** [str.startswith] *)
Fixpoint startswith (p s : string) : bool :=
  match p, s with
  | EmptyString, _ => true
  | String c p', String d s' => Ascii.eqb c d && startswith p' s'
  | String _ _, EmptyString => false
  end.

(** [sub in s] for strings *)
Fixpoint contains (sub s : string) : bool :=
  match s with
  | EmptyString => startswith sub EmptyString
  | String _ s' => startswith sub s || contains sub s'
  end.

(** The ASCII characters for which [str.isspace] holds:
    [\t \n \x0b \x0c \r], [\x1c]..[\x1f] and the space. *)
Definition isspace (c : ascii) : bool :=
  let n := nat_of_ascii c in
  ((9 <=? n)%nat && (n <=? 13)%nat) || ((28 <=? n)%nat && (n <=? 32)%nat).

(** [s.lstrip(chars)] / [s.rstrip(chars)] for a character predicate. *)
Fixpoint lstrip_by (p : ascii -> bool) (s : string) : string :=
  match s with
  | EmptyString => EmptyString
  | String c s' => if p c then lstrip_by p s' else s
  end.

Fixpoint rstrip_by (p : ascii -> bool) (s : string) : string :=
  match s with
  | EmptyString => EmptyString
  | String c s' =>
      let r := rstrip_by p s' in
      match r with
      | EmptyString => if p c then EmptyString else String c EmptyString
      | _ => String c r
      end
  end.

(** [s.strip()] *)
Definition strip (s : string) : string :=
  rstrip_by isspace (lstrip_by isspace s).

(** [s.strip("'")] *)
Definition strip_quote (s : string) : string :=
  let q c := Ascii.eqb c "'"%char in rstrip_by q (lstrip_by q s).

(** Prefix a character to the first piece of a split. *)
Definition cons_hd (c : ascii) (l : list string) : list string :=
  match l with
  | [] => [String c EmptyString]
  | x :: l' => String c x :: l'
  end.

(** [s.split(sep)] for a non-empty [sep]: scan left to right; at a
    match, close the current piece and skip the [length sep - 1] further
    characters of the separator ([k] counts the characters still to skip). *)
Fixpoint split_go (sep s : string) (k : nat) : list string :=
  match s with
  | EmptyString => [EmptyString]
  | String c s' =>
      match k with
      | S k' => split_go sep s' k'
      | O =>
          if startswith sep s
          then EmptyString :: split_go sep s' (String.length sep - 1)
          else cons_hd c (split_go sep s' 0)
      end
  end.

Definition split (sep s : string) : list string := split_go sep s 0.

(** [s.split()]: split on runs of whitespace, dropping empty pieces. *)
Fixpoint split_ws_go (s : string) (cur : string) : list string :=
  match s with
  | EmptyString => match cur with EmptyString => [] | _ => [cur] end
  | String c s' =>
      if isspace c
      then match cur with
           | EmptyString => split_ws_go s' EmptyString
           | _ => cur :: split_ws_go s' EmptyString
           end
      else split_ws_go s' (cur ++ String c EmptyString)
  end.

Definition split_ws (s : string) : list string := split_ws_go s EmptyString.

(** [l[0]] on a list that is never empty here ([str.split] results). *)
Definition first (l : list string) : string := hd EmptyString l.

(** [l[-1]] on such a list. *)
Definition last_of (l : list string) : string := last l EmptyString.

(** [l[i]] raising [IndexError] out of range. *)
Definition getitem {A} (l : list A) (i : nat) : result A :=
  match nth_error l i with
  | Some x => Ok x
  | None => Raise IndexError
  end.

End Py.

(** [s.endswith(p)] *)
Definition Py_endswith (p s : string) : bool :=
  (String.length p <=? String.length s)%nat &&
  String.eqb (substring (String.length s - String.length p) (String.length p) s) p.

(** [s.split(c, 1)] when [c in s]: the text before the first [c] and the
    text after it. *)
Fixpoint Py_split_once (c : ascii) (s : string) : string * string :=
  match s with
  | EmptyString => (EmptyString, EmptyString)
  | String d s' =>
      if Ascii.eqb c d then (EmptyString, s')
      else let (l, r) := Py_split_once c s' in (String d l, r)
  end.

(** ** Data model *)

(** A row is a list of text values; equality is element-wise. *)
Definition row := list string.

Definition row_eqb (r1 r2 : row) : bool :=
  if list_eq_dec string_dec r1 r2 then true else false.

(** [row in rows] *)
Definition mem (r : row) (rs : list row) : bool := existsb (row_eqb r) rs.

(** [{'attributes': attributes, 'data': data}] *)
Record relation := mkRel { attributes : list string; data : list row }.

(** [self.relations]: relation names to relations, in insertion order. *)
Definition db := list (string * relation).

(** A materialised result as the operators return it: a list of lists,
    the header (attribute list) first when the operator includes it. *)
Definition table := list row.

(** [self.relations[name]] guarded by [name in self.relations]. *)
Fixpoint lookup (d : db) (name : string) : option relation :=
  match d with
  | [] => None
  | (n, r) :: d' => if String.eqb n name then Some r else lookup d' name
  end.

(** [l.index(x)], [None] when [x not in l]. *)
Fixpoint index_of (x : string) (l : list string) : option nat :=
  match l with
  | [] => None
  | y :: l' => if String.eqb y x then Some 0 else option_map S (index_of x l')
  end.

(** [query.split('(')[-1].split(')')[0].strip()]: the operand text that
    [selection], [projection], [crossproduct] and [union] extract. *)
Definition relation_part (q : string) : string :=
  Py.strip (Py.first (Py.split ")" (Py.last_of (Py.split "(" q)))).

(** [query.split('{')[1].split('}')[0].strip()] *)
Definition brace_part (q : string) : result string :=
  s <- Py.getitem (Py.split "{" q) 1 ;;
  Ok (Py.strip (Py.first (Py.split "}" s))).

(** ** [evaluate_condition], identical in both files *)

Section Condition.
(** Python floats: [float(s)] either raises [ValueError] ([None]) or
    yields a float, compared with [>] and [<]. *)
Context {Fl : Type}.
Variable py_float : string -> option Fl.
Variables fl_gt fl_lt : Fl -> Fl -> bool.

Definition to_float (s : string) : result Fl :=
  match py_float s with Some f => Ok f | None => Raise ValueError end.

Definition evaluate_condition (value operator condition_value : string)
  : result bool :=
  if String.eqb operator ">" then
    a <- to_float value ;; b <- to_float condition_value ;; Ok (fl_gt a b)
  else if String.eqb operator "<" then
    a <- to_float value ;; b <- to_float condition_value ;; Ok (fl_lt a b)
  else if String.eqb operator "=" then
    Ok (String.eqb value condition_value)
  else Ok false.
End Condition.

(** ** The driver loop and the report, shared by both files

    [process_queries_from_file] strips each line, evaluates it inside
    [try/except Exception], and records [(query, result)] or
    [(query, "Error: ...")]; the report writes the query, the rows when the
    result is a list, and an empty record. *)

Inductive outcome :=
| Value (v : option table)   (* a list result, or [None] *)
| ErrorText (e : exn).       (* the string [f"Error: {str(e)}"] *)

Definition process_queries (eval_line : string -> result (option table))
  (queries : list string) : list (string * outcome) :=
  map (fun query =>
         let query := Py.strip query in
         (query, match eval_line query with
                 | Ok r => Value r
                 | Raise e => ErrorText e
                 end)) queries.

(** [writer.writerow([query])]; [writer.writerows(result)] when the result
    is a list; [writer.writerow([])]. *)
Definition report_entry (qr : string * outcome) : list (list string) :=
  let (query, r) := qr in
  [query] :: (match r with Value (Some t) => t | _ => [] end) ++ [[]].

Definition write_report (results : list (string * outcome))
  : list (list string) :=
  flat_map report_entry results.

(** ** [Fileread.py] *)

Module Fileread.
Section Fileread.
Context {Fl : Type}.
Variable py_float : string -> option Fl.
Variables fl_gt fl_lt : Fl -> Fl -> bool.
(** [list(set(rows))]: the rows of a Python set built from [rows], in the
    set's (unspecified) iteration order. *)
Variable set_list : list row -> list row.

Let evaluate_condition := evaluate_condition py_float fl_gt fl_lt.

(** [get_relation_data] *)
Definition get_relation_data (d : db) (relation_name : string)
  : result relation :=
  match lookup d relation_name with
  | Some r => Ok r
  | None => Raise ValueError
  end.

(** [get_attribute_index]: the index of [attr] in the attribute list of
    the first stored relation, in dictionary order, that has it. *)
Fixpoint get_attribute_index (d : db) (attr : string) : result nat :=
  match d with
  | [] => Raise ValueError
  | (_, r) :: d' =>
      match index_of attr (attributes r) with
      | Some i => Ok i
      | None => get_attribute_index d' attr
      end
  end.

(** [parse_conditions] *)
Definition parse_conditions (condition_str : string) : list string :=
  if Py.contains "AND" condition_str
  then map Py.strip (Py.split "AND" condition_str)
  else if Py.contains "OR" condition_str
  then map Py.strip (Py.split "OR" condition_str)
  else [condition_str].

(** One non-empty condition of [evaluate_conditions]:
    [attr, operator, value = condition.split()] and the rest of the loop
    body. *)
Definition eval_one (d : db) (r : row) (condition : string) : result bool :=
  match Py.split_ws condition with
  | [attr; operator; value] =>
      let value := Py.strip_quote value in
      col_index <- get_attribute_index d attr ;;
      v <- Py.getitem r col_index ;;
      evaluate_condition v operator value
  | _ => Raise ValueError
  end.

Definition nonempty (s : string) : bool := negb (String.eqb s EmptyString).

(** [evaluate_conditions]: [all(results)] over the non-empty conditions. *)
Definition evaluate_conditions (d : db) (r : row) (conditions : list string)
  : result bool :=
  results <- mapM (eval_one d r) (filter nonempty conditions) ;;
  Ok (forallb (fun b => b) results).

(** [selection] *)
Definition selection (d : db) (query : string) : result table :=
  let relation_name := relation_part query in
  condition <- brace_part query ;;
  match lookup d relation_name with
  | None => Raise ValueError
  | Some rel =>
      let conditions := parse_conditions condition in
      filtered_data <- filterM (fun r => evaluate_conditions d r conditions)
                               (data rel) ;;
      Ok (attributes rel :: filtered_data)
  end.

(** [crossproduct] *)
Definition crossproduct (d : db) (query : string) : result table :=
  match Py.split "*" (relation_part query) with
  | [l; r] =>
      left_relation <- get_relation_data d (Py.strip l) ;;
      right_relation <- get_relation_data d (Py.strip r) ;;
      let combined_data :=
        flat_map (fun left_row => map (fun right_row => left_row ++ right_row)
                                      (data right_relation))
                 (data left_relation) in
      let combined_attributes :=
        attributes left_relation ++ attributes right_relation in
      Ok (combined_attributes :: combined_data)
  | _ => Raise ValueError
  end.

(** [projection] *)
Definition projection (d : db) (query : string) : result table :=
  let relation_query := relation_part query in
  attrs_s <- brace_part query ;;
  let attrs := map Py.strip (Py.split "," attrs_s) in
  src <- (if Py.contains "*" relation_query then
            relation_data <- crossproduct d relation_query ;;
            rel_attributes <- Py.getitem relation_data 0 ;;
            Ok (rel_attributes, tl relation_data)
          else
            let relation_name := Py.strip relation_query in
            match lookup d relation_name with
            | None => Raise ValueError
            | Some rel => Ok (attributes rel, data rel)
            end) ;;
  let (rel_attributes, dat) := src in
  col_indices <- mapM (fun a => match index_of a rel_attributes with
                                | Some i => Ok i
                                | None => Raise ValueError
                                end) attrs ;;
  projected_data <- mapM (fun r => mapM (Py.getitem r) col_indices) dat ;;
  Ok (attrs :: projected_data).

(** [union] *)
Definition union (d : db) (query : string) : result table :=
  match Py.split "U" (relation_part query) with
  | [l; r] =>
      left_relation <- get_relation_data d (Py.strip l) ;;
      right_relation <- get_relation_data d (Py.strip r) ;;
      if list_eq_dec string_dec (attributes left_relation)
                                (attributes right_relation)
      then
        let combined_data := data left_relation ++ data right_relation in
        Ok (attributes left_relation :: set_list combined_data)
      else Raise ValueError
  | _ => Raise ValueError
  end.

(** [difference], given the [evaluate_query] it calls on its two
    sub-queries. *)
Definition difference (evaluate_query : string -> result (option table))
  (query : string) : result (option table) :=
  match Py.split ") - (" query with
  | [s0; s1] =>
      let left_query := (Py.strip s0 ++ ")")%string in
      let right_query := ("(" ++ Py.strip s1)%string in
      left_relation <- evaluate_query left_query ;;
      right_relation <- evaluate_query right_query ;;
      match left_relation, right_relation with
      | Some (lh :: lt), Some (rh :: rt) =>
          if negb (length lh =? length rh)%nat then Raise ValueError
          else
            let difference_data :=
              set_list (filter (fun r => negb (mem r rt)) lt) in
            match difference_data with
            | [] => Ok (Some [lh])
            | _ => Ok (Some (lh :: difference_data))
            end
      | _, _ => Ok None   (* [not left_relation or not right_relation] *)
      end
  | _ => Raise ValueError
  end.

Definition some (r : result table) : result (option table) :=
  t <- r ;; Ok (Some t).

(** [evaluate_query]; [fuel] is the remaining Python recursion depth. *)
Fixpoint evaluate_query (fuel : nat) (d : db) (query : string)
  : result (option table) :=
  match fuel with
  | O => Raise RecursionError
  | S n =>
      let query := Py.strip query in
      let r :=
        if Py.startswith "SELE" query then some (selection d query)
        else if Py.startswith "PROJ" query then some (projection d query)
        else if Py.startswith "X" query then some (crossproduct d query)
        else if Py.startswith "JOIN" query then Raise AttributeError
        else if Py.startswith "*" query then Raise AttributeError
        else if Py.startswith "U" query then some (union d query)
        else if Py.startswith "-" query then
          difference (evaluate_query n d) query
        else Ok None in
      match r with
      | Ok v => Ok v
      | Raise _ => Ok None   (* [except Exception: return None] *)
      end
  end.

(** The body of the [try] in [process_queries_from_file] ([self.join],
    [self.naturaljoin], [self.AND] and [self.OR] do not exist). *)
Definition dispatch (fuel : nat) (d : db) (query : string)
  : result (option table) :=
  if Py.startswith "SELE" query then some (selection d query)
  else if Py.startswith "PROJ" query then some (projection d query)
  else if Py.startswith "X" query then some (crossproduct d query)
  else if Py.startswith "JOIN" query then Raise AttributeError
  else if Py.startswith "*" query then Raise AttributeError
  else if Py.startswith "U" query then some (union d query)
  else if Py.startswith "-" query then
    difference (evaluate_query fuel d) query
  else if Py.startswith "," query then Raise AttributeError
  else if Py.startswith "OR" query then Raise AttributeError
  else Ok None.

(** [process_queries_from_file], from the lines of the query file to the
    records of the report. *)
Definition process_queries_from_file (fuel : nat) (d : db)
  (queries : list string) : list (list string) :=
  write_report (process_queries (dispatch fuel d) queries).

End Fileread.
End Fileread.

(** ** [newonetest.py] *)

Module Newonetest.
Section Newonetest.
Context {Fl : Type}.
Variable py_float : string -> option Fl.
Variables fl_gt fl_lt : Fl -> Fl -> bool.

Let evaluate_condition := evaluate_condition py_float fl_gt fl_lt.

(** [selection]: one predicate, resolved in the source relation; the result
    has no header row. *)
Definition selection (d : db) (query : string) : result table :=
  let relation_name := relation_part query in
  condition <- brace_part query ;;
  match lookup d relation_name with
  | None => Raise ValueError
  | Some rel =>
      match Py.split_ws condition with
      | [attr; operator; value] =>
          let value := Py.strip_quote value in
          match index_of attr (attributes rel) with
          | None => Raise ValueError
          | Some col_index =>
              filterM (fun r => v <- Py.getitem r col_index ;;
                                evaluate_condition v operator value)
                      (data rel)
          end
      | _ => Raise ValueError
      end
  end.

(** [projection]: the result has no header row. *)
Definition projection (d : db) (query : string) : result table :=
  let relation_name := relation_part query in
  attrs_s <- brace_part query ;;
  let attrs := map Py.strip (Py.split "," attrs_s) in
  match lookup d relation_name with
  | None => Raise ValueError
  | Some rel =>
      col_indices <- mapM (fun a => match index_of a (attributes rel) with
                                    | Some i => Ok i
                                    | None => Raise ValueError
                                    end) attrs ;;
      mapM (fun r => mapM (Py.getitem r) col_indices) (data rel)
  end.

(** [parse_union_query] / [parse_difference_query] *)
Definition parse_split (c : ascii) (query : string) : string * string :=
  let (left, right) := Py_split_once c query in (Py.strip left, Py.strip right).

(** [union], given the [execute_query] it calls on both operands. *)
Definition union (execute_query : string -> result table)
  (left_query right_query : string) : result table :=
  left_result <- execute_query left_query ;;
  right_result <- execute_query right_query ;;
  Ok (left_result ++ filter (fun r => negb (mem r left_result)) right_result).

(** [execute_query]; [fuel] is the remaining Python recursion depth.
    [self.difference(left_query, right_query)] passes two arguments to a
    method that takes one: [TypeError].  The class has no [crossproduct]
    method: [AttributeError]. *)
Fixpoint execute_query (fuel : nat) (d : db) (query : string) : result table :=
  match fuel with
  | O => Raise RecursionError
  | S n =>
      let query :=
        if Py.startswith "(" query && Py_endswith ")" query
        then Py.strip (substring 1 (String.length query - 2) query)
        else query in
      if Py.contains "U" query then
        let (left_query, right_query) := parse_split "U" query in
        union (execute_query n d) left_query right_query
      else if Py.contains "-" query then
        let (_, _) := parse_split "-" query in Raise TypeError
      else if Py.startswith "SELE" query then selection d query
      else if Py.startswith "PROJ" query then projection d query
      else if Py.startswith "X" query then Raise AttributeError
      else Ok []
  end.

(** [process_queries_from_file] *)
Definition process_queries_from_file (fuel : nat) (d : db)
  (queries : list string) : list (list string) :=
  write_report
    (process_queries (fun q => t <- execute_query fuel d q ;; Ok (Some t))
                     queries).

End Newonetest.
End Newonetest.

(** ** A sample instantiation of the abstract parts

    Decimal natural numbers stand for [float(...)]; a set built from a list
    is iterated in first-occurrence order. *)

Fixpoint parse_digits (s : string) (acc : nat) : option nat :=
  match s with
  | EmptyString => Some acc
  | String c s' =>
      let n := nat_of_ascii c in
      if ((48 <=? n) && (n <=? 57))%nat
      then parse_digits s' (acc * 10 + (n - 48))
      else None
  end.

Definition nat_float (s : string) : option nat :=
  match s with
  | EmptyString => None
  | _ => parse_digits s 0
  end.

Definition nat_gt (a b : nat) : bool := Nat.ltb b a.
Definition nat_lt (a b : nat) : bool := Nat.ltb a b.

Definition nodup_rows (l : list row) : list row :=
  nodup (list_eq_dec string_dec) l.

(** The relations of the end-to-end scenario. *)
Definition EMP : relation :=
  mkRel ["id"; "name"; "salary"] [["1"; "Al"; "50"]; ["2"; "Bo"; "90"]].
Definition DEPT : relation := mkRel ["id"; "dname"] [["1"; "Eng"]].
Definition sample_db : db := [("EMP", EMP); ("DEPT", DEPT)].

(** Stores on which the attribute of a selection is found in another
    relation that comes first in the dictionary. *)
Definition db_other_first : db :=
  [("A", mkRel ["z"] [["9"]]); ("B", mkRel ["id"] [["1"]; ["2"]])].
Definition db_swapped : db :=
  [("A", mkRel ["x"; "y"] []); ("B", mkRel ["y"; "x"] [["1"; "2"]; ["2"; "1"]])].

(** The report of a batch is one block per query line, in input order:
    the stripped query, then the rows of a list result (nothing for [None] or
    a raised exception), then an empty record. *)
Definition one_entry_per_line (eval_line : string -> result (option table))
  (queries : list string) (report : list (list string)) : Prop :=
  exists blocks,
    length blocks = length queries /\
    report = concat blocks /\
    Forall2 (fun query block =>
      exists body, block = [Py.strip query] :: body ++ [[]] /\
        (forall e, eval_line (Py.strip query) = Raise e -> body = []) /\
        (forall t, eval_line (Py.strip query) = Ok (Some t) -> body = t))
      queries blocks.

(** A relation name written in a query: none of the characters [cs]
    (the parser's delimiters) occurs in it. *)
Definition avoids (cs : list ascii) (s : string) : bool :=
  forallb (fun c => negb (Py.contains (String c EmptyString) s)) cs.

(** ** [load_relations]

    The directory is given as its entries in [os.listdir] order, each
    with the records [csv.reader] parses from it (only the entries whose
    name ends in [.csv] are opened). *)

(** [filename[:-4]] *)
Definition relation_name_of (filename : string) : string :=
  substring 0 (String.length filename - 4) filename.

(** [self.relations[k] = v]: a new key goes last, an existing key keeps
    its position and takes the new value. *)
Fixpoint dict_set (d : db) (k : string) (v : relation) : db :=
  match d with
  | [] => [(k, v)]
  | (n, r) :: d' =>
      if String.eqb n k then (k, v) :: d' else (n, r) :: dict_set d' k v
  end.

(** [load_relations]; [None] when [next(reader)] raises [StopIteration]
    on an empty file. *)
Fixpoint load_relations (files : list (string * list row)) (d : db)
  : option db :=
  match files with
  | [] => Some d
  | (filename, records) :: files' =>
      if Py_endswith ".csv" filename then
        match records with
        | [] => None
        | attributes :: data =>
            load_relations files'
              (dict_set d (relation_name_of filename) (mkRel attributes data))
        end
      else load_relations files' d
  end.

(** [s.count(c)] for one character. *)
Fixpoint count_char (c : ascii) (s : string) : nat :=
  match s with
  | EmptyString => 0
  | String d s' => (if Ascii.eqb c d then 1 else 0) + count_char c s'
  end.

(** The row [r] reduced to the columns named [attrs], each read at the
    first position of its name in [rel_attributes]. *)
Definition project_row (rel_attributes attrs : list string) (r : row) : row :=
  map (fun a => nth (match index_of a rel_attributes with
                     | Some i => i | None => 0 end) r EmptyString) attrs.

(** * Sample evaluations *)

Module Samples.

Example split_ex1 : Py.split "(" "PROJ (SELE (EMP) {a}) {b}" = ["PROJ "; "SELE "; "EMP) {a}) {b}"].
Proof. reflexivity. Qed.
Example split_ex2 : Py.split "AND" "a AND b ANDc" = ["a "; " b "; "c"].
Proof. reflexivity. Qed.
Example split_ex3 : Py.split ") - (" "(x) - (y) - (z)" = ["(x"; "y"; "z)"].
Proof. reflexivity. Qed.
Example split_ex4 : Py.split_ws "  a  >  '5' " = ["a"; ">"; "'5'"].
Proof. reflexivity. Qed.
Example strip_ex : Py.strip "  ab c  " = "ab c" /\ Py.strip_quote "'60'" = "60".
Proof. split; reflexivity. Qed.

(** The end-to-end scenario on [EMP] and [DEPT]. *)
Example scenario_cross :
  Fileread.crossproduct sample_db "X (EMP * DEPT)" =
  Ok [["id"; "name"; "salary"; "id"; "dname"];
      ["1"; "Al"; "50"; "1"; "Eng"]; ["2"; "Bo"; "90"; "1"; "Eng"]].
Proof. vm_compute. reflexivity. Qed.

Example scenario_union :
  Fileread.union nodup_rows sample_db "U (EMP U EMP)" =
  Ok [["id"; "name"; "salary"]; ["1"; "Al"; "50"]; ["2"; "Bo"; "90"]].
Proof. vm_compute. reflexivity. Qed.

Example scenario_ghost :
  Fileread.process_queries_from_file nat_float nat_gt nat_lt nodup_rows 100
    sample_db ["SELE (GHOST) {x = 'y'}"; "X (EMP * DEPT)"] =
  [["SELE (GHOST) {x = 'y'}"]; []; ["X (EMP * DEPT)"];
   ["id"; "name"; "salary"; "id"; "dname"];
   ["1"; "Al"; "50"; "1"; "Eng"]; ["2"; "Bo"; "90"; "1"; "Eng"]; []].
Proof. vm_compute. reflexivity. Qed.

Example newonetest_union_dup :
  Newonetest.execute_query nat_float nat_gt nat_lt 10 sample_db
    "SELE (EMP) {salary > '60'} U SELE (EMP) {id = '1'}" =
  Ok [["2"; "Bo"; "90"]; ["1"; "Al"; "50"]].
Proof. vm_compute. reflexivity. Qed.

End Samples.

(** * Properties of the string helpers *)

Module PyFacts.

Abbreviation sep1 c := (String c EmptyString).

Lemma split_go_nonempty : forall sep s k, Py.split_go sep s k <> [].
Proof.
  intros sep s; induction s as [|d s IH]; intros k; simpl.
  - discriminate.
  - destruct k as [|k]; [|apply IH].
    destruct (Py.startswith sep (String d s)); [discriminate|].
    specialize (IH 0). destruct (Py.split_go sep s 0); [contradiction|discriminate].
Qed.

Lemma split1_cons : forall c d s,
  Py.split (sep1 c) (String d s) =
  if Ascii.eqb c d then EmptyString :: Py.split (sep1 c) s
  else Py.cons_hd d (Py.split (sep1 c) s).
Proof.
  intros c d s. unfold Py.split. simpl. rewrite andb_true_r. reflexivity.
Qed.

Lemma split1_empty : forall c, Py.split (sep1 c) EmptyString = [EmptyString].
Proof. reflexivity. Qed.

Lemma cons_hd_app : forall d l m, l <> [] ->
  Py.cons_hd d (l ++ m) = Py.cons_hd d l ++ m.
Proof. intros d [|x l] m H; [contradiction|reflexivity]. Qed.

(** For a one-character separator, splitting around an occurrence of it
    concatenates the splits of both sides. *)
Lemma split1_app : forall c x y,
  Py.split (sep1 c) (x ++ String c y)%string =
  Py.split (sep1 c) x ++ Py.split (sep1 c) y.
Proof.
  intros c x y; induction x as [|d x IH].
  - simpl. rewrite split1_cons, Ascii.eqb_refl. reflexivity.
  - simpl. rewrite !split1_cons. destruct (Ascii.eqb c d).
    + rewrite IH. reflexivity.
    + rewrite IH. apply cons_hd_app. apply split_go_nonempty.
Qed.

Lemma split1_notin : forall c s,
  Py.contains (sep1 c) s = false -> Py.split (sep1 c) s = [s].
Proof.
  intros c s; induction s as [|d s IH]; intros H.
  - reflexivity.
  - simpl in H. rewrite andb_true_r in H. apply orb_false_iff in H as [H1 H2].
    rewrite split1_cons, H1, IH by exact H2. reflexivity.
Qed.

Lemma first_app : forall l m, l <> [] -> Py.first (l ++ m) = Py.first l.
Proof. intros [|x l] m H; [contradiction|reflexivity]. Qed.

Lemma last_of_app1 : forall l x, Py.last_of (l ++ [x]) = x.
Proof. intros l x. unfold Py.last_of. apply last_last. Qed.

(** ** [strip] *)

Lemma lstrip_length : forall p s,
  String.length (Py.lstrip_by p s) <= String.length s.
Proof.
  intros p s; induction s as [|c s IH]; simpl; [lia|].
  destruct (p c); simpl; lia.
Qed.

Lemma lstrip_shorter : forall p s,
  Py.lstrip_by p s = s \/ String.length (Py.lstrip_by p s) < String.length s.
Proof.
  intros p [|c s]; simpl; [left; reflexivity|].
  destruct (p c); [right; pose proof (lstrip_length p s); lia|left; reflexivity].
Qed.

Lemma rstrip_length : forall p s,
  String.length (Py.rstrip_by p s) <= String.length s.
Proof.
  intros p s; induction s as [|c s IH]; simpl; [lia|].
  destruct (Py.rstrip_by p s) eqn:E; [destruct (p c); simpl; lia|simpl in *; lia].
Qed.

Lemma strip_fixed : forall s, Py.strip s = s ->
  Py.lstrip_by Py.isspace s = s /\ Py.rstrip_by Py.isspace s = s.
Proof.
  intros s H. unfold Py.strip in H.
  assert (L : Py.lstrip_by Py.isspace s = s).
  { destruct (lstrip_shorter Py.isspace s) as [E|E]; [exact E|].
    pose proof (rstrip_length Py.isspace (Py.lstrip_by Py.isspace s)) as R.
    rewrite H in R. lia. }
  split; [exact L|]. rewrite L in H. exact H.
Qed.

Lemma rstrip_app : forall p x y, Py.rstrip_by p y <> EmptyString ->
  Py.rstrip_by p (x ++ y)%string = (x ++ Py.rstrip_by p y)%string.
Proof.
  intros p x y Hy; induction x as [|c x IH]; simpl; [reflexivity|].
  rewrite IH. destruct x as [|d x]; simpl.
  - destruct (Py.rstrip_by p y); [contradiction|reflexivity].
  - reflexivity.
Qed.

Lemma rstrip_app_strip : forall p x c, p c = true ->
  Py.rstrip_by p (x ++ String c EmptyString)%string = Py.rstrip_by p x.
Proof.
  intros p x c Hc; induction x as [|d x IH]; simpl.
  - rewrite Hc. reflexivity.
  - rewrite IH. reflexivity.
Qed.

Lemma lstrip_keep : forall p c s, p c = false ->
  Py.lstrip_by p (String c s) = String c s.
Proof. intros p c s H. simpl. rewrite H. reflexivity. Qed.

(** [strip] keeps a first character that is not whitespace. *)
Lemma strip_cons_nonspace : forall c s, Py.isspace c = false ->
  exists t, Py.strip (String c s) = String c t.
Proof.
  intros c s H. unfold Py.strip. rewrite lstrip_keep by exact H. simpl.
  destruct (Py.rstrip_by Py.isspace s); [rewrite H|]; eexists; reflexivity.
Qed.

Lemma rstrip_nonempty : forall p s, Py.rstrip_by p s = s -> s <> EmptyString ->
  Py.rstrip_by p s <> EmptyString.
Proof. intros p s H1 H2. rewrite H1. exact H2. Qed.

Lemma sapp_assoc : forall x y z : string, ((x ++ y) ++ z)%string = (x ++ (y ++ z))%string.
Proof. intros x y z; induction x as [|c x IH]; simpl; [reflexivity|rewrite IH; reflexivity]. Qed.

Lemma sapp_nil_r : forall x : string, (x ++ EmptyString)%string = x.
Proof. intros x; induction x as [|c x IH]; simpl; [reflexivity|rewrite IH; reflexivity]. Qed.

Lemma contains1_app : forall c x y,
  Py.contains (sep1 c) (x ++ y)%string =
  Py.contains (sep1 c) x || Py.contains (sep1 c) y.
Proof.
  intros c x y; induction x as [|d x IH]; simpl.
  - destruct y; reflexivity.
  - rewrite IH, !andb_true_r, orb_assoc. reflexivity.
Qed.

(** A non-empty string that [lstrip] leaves alone starts with a
    non-whitespace character. *)
Lemma lstrip_fixed_head : forall s, s <> EmptyString ->
  Py.lstrip_by Py.isspace s = s ->
  exists c t, s = String c t /\ Py.isspace c = false.
Proof.
  intros [|c t] H1 H2; [contradiction|]. exists c, t. split; [reflexivity|].
  simpl in H2. destruct (Py.isspace c) eqn:E; [|reflexivity].
  pose proof (lstrip_length Py.isspace t) as L. rewrite H2 in L. simpl in L. lia.
Qed.

End PyFacts.

(** * Operand extraction ([relation_part]) *)

Module OperandFacts.
Import PyFacts.

(** The text after the last ['('] up to the first [')'] that follows it. *)
Lemma relation_part_app : forall pre mid post,
  Py.contains "(" mid = false -> Py.contains ")" mid = false ->
  Py.contains "(" post = false ->
  relation_part (pre ++ "(" ++ mid ++ ")" ++ post)%string = Py.strip mid.
Proof.
  intros pre mid post H1 H2 H3. unfold relation_part.
  change "(" with (sep1 "("%char) in *. change ")" with (sep1 ")"%char) in *.
  change (pre ++ sep1 "(" ++ mid ++ sep1 ")" ++ post)%string
    with (pre ++ String "(" (mid ++ String ")" post))%string.
  rewrite split1_app.
  assert (E : Py.split (sep1 "(") (mid ++ String ")" post)%string
              = [(mid ++ String ")" post)%string]).
  { apply split1_notin. clear -H1 H3. induction mid as [|d mid IH]; simpl in *.
    - rewrite H3. reflexivity.
    - rewrite andb_true_r in *. apply orb_false_iff in H1 as [A B].
      rewrite A, IH by exact B. reflexivity. }
  rewrite E, last_of_app1, split1_app, split1_notin by exact H2.
  reflexivity.
Qed.

End OperandFacts.

(** * Cross product *)

Module CrossFacts.
Import PyFacts.

Lemma cross_rows_length : forall (A B : list row),
  length (flat_map (fun l => map (fun r => l ++ r) B) A) = length A * length B.
Proof.
  intros A B; induction A as [|l A IH]; simpl; [reflexivity|].
  rewrite length_app, length_map, IH. reflexivity.
Qed.

(** Left row varying slowest: row [i * |B| + j] pairs left row [i] with
    right row [j]. *)
Lemma cross_rows_nth : forall (A B : list row) i j l r,
  nth_error A i = Some l -> nth_error B j = Some r ->
  nth_error (flat_map (fun l => map (fun r => l ++ r) B) A)
            (i * length B + j) = Some (l ++ r).
Proof.
  unfold row. intros A B; induction A as [|l0 A IH]; intros i j l r Hi Hj.
  - destruct i; discriminate.
  - simpl. destruct i as [|i]; simpl in Hi.
    + injection Hi as <-. simpl.
      assert (Hlt : j < length B) by (apply nth_error_Some; congruence).
      rewrite nth_error_app1 by (rewrite length_map; lia).
      rewrite nth_error_map, Hj. reflexivity.
    + rewrite nth_error_app2 by (rewrite length_map; lia).
      rewrite length_map.
      replace (S i * length B + j - length B) with (i * length B + j) by lia.
      apply IH; assumption.
Qed.

(** The operand text of [X (a * b)] splits into the two names. *)
Lemma cross_operands : forall a b,
  a <> EmptyString -> b <> EmptyString -> Py.strip a = a -> Py.strip b = b ->
  avoids ["("; ")"; "*"]%char a = true -> avoids ["("; ")"; "*"]%char b = true ->
  map Py.strip (Py.split "*" (relation_part ("X (" ++ a ++ " * " ++ b ++ ")")%string))
  = [a; b].
Proof.
  intros a b Ha Hb Sa Sb Pa Pb.
  unfold avoids in Pa, Pb. simpl in Pa, Pb.
  apply andb_true_iff in Pa as [Pa1 Pa]; apply andb_true_iff in Pa as [Pa2 Pa];
  apply andb_true_iff in Pa as [Pa3 _].
  apply andb_true_iff in Pb as [Pb1 Pb]; apply andb_true_iff in Pb as [Pb2 Pb];
  apply andb_true_iff in Pb as [Pb3 _].
  apply negb_true_iff in Pa1, Pa2, Pa3, Pb1, Pb2, Pb3.
  apply strip_fixed in Sa as [La Ra]; apply strip_fixed in Sb as [Lb Rb].
  set (mid := (a ++ " * " ++ b)%string).
  assert (Q : ("X (" ++ a ++ " * " ++ b ++ ")")%string
              = ("X " ++ "(" ++ mid ++ ")" ++ "")%string).
  { unfold mid. simpl. rewrite sapp_assoc. reflexivity. }
  rewrite Q, OperandFacts.relation_part_app.
  2, 3: unfold mid; change "(" with (sep1 "("%char); change ")" with (sep1 ")"%char);
        rewrite !contains1_app; simpl; rewrite ?Pa1, ?Pb1, ?Pa2, ?Pb2; reflexivity.
  2: reflexivity.
  destruct (lstrip_fixed_head a Ha La) as [c [t [-> Hc]]].
  assert (Sm : Py.strip mid = mid).
  { unfold Py.strip, mid. simpl. rewrite Hc.
    change (String c (t ++ String " " (String "*" (String " " b))))
      with (String c t ++ (" * " ++ b))%string.
    rewrite rstrip_app.
    - simpl. rewrite Rb.
      destruct b as [|d b']; [contradiction|]. reflexivity.
    - simpl. rewrite Rb. destruct b; [contradiction|]. simpl. discriminate. }
  rewrite Sm. unfold mid.
  change "*" with (sep1 "*"%char).
  replace (String c t ++ " * " ++ b)%string
    with ((String c t ++ " ") ++ String "*" (" " ++ b))%string
    by (rewrite sapp_assoc; reflexivity).
  rewrite split1_app, !split1_notin.
  - simpl map. unfold Py.strip.
    rewrite lstrip_keep by exact Hc. f_equal.
    + change (String c (t ++ " ")) with (String c t ++ String " " EmptyString)%string.
      rewrite rstrip_app_strip by reflexivity. exact Ra.
    + f_equal. simpl. rewrite Lb. exact Rb.
  - simpl. exact Pb3.
  - rewrite contains1_app, Pa3. reflexivity.
Qed.

(** Every successful cross product is the product of the two relations its
    operand text names. *)
Lemma crossproduct_ok_inv : forall d q out,
  Fileread.crossproduct d q = Ok out ->
  exists l r A B,
    Py.split "*" (relation_part q) = [l; r] /\
    lookup d (Py.strip l) = Some A /\ lookup d (Py.strip r) = Some B /\
    out = (attributes A ++ attributes B)
          :: flat_map (fun lr => map (fun rr => lr ++ rr) (data B)) (data A).
Proof.
  intros d q out H. unfold Fileread.crossproduct in H.
  destruct (Py.split "*" (relation_part q)) as [|l [|r [|x rest]]] eqn:E;
    try discriminate.
  unfold Fileread.get_relation_data in H.
  destruct (lookup d (Py.strip l)) as [A|] eqn:EA; [|discriminate].
  destruct (lookup d (Py.strip r)) as [B|] eqn:EB; [|discriminate].
  simpl in H. injection H as <-. exists l, r, A, B. auto.
Qed.

End CrossFacts.

(** * Difference in [Fileread.py] *)

Module DifferenceFacts.
Import PyFacts.

(** A sub-query that starts with ['('] matches none of the prefixes of
    [evaluate_query]: it evaluates to [None]. *)
Lemma evaluate_query_paren : forall Fl (py_float : string -> option Fl)
  fl_gt fl_lt set_list n d s,
  Fileread.evaluate_query py_float fl_gt fl_lt set_list (S n) d
    (String "(" s) = Ok None.
Proof.
  intros. simpl.
  destruct (strip_cons_nonspace "(" s eq_refl) as [t ->]. reflexivity.
Qed.

(** [Fileread.difference] never returns a relation: the right sub-query
    ["(" + ...] always evaluates to [None]. *)
Lemma difference_never_relation : forall Fl (py_float : string -> option Fl)
  fl_gt fl_lt set_list n d q t,
  Fileread.difference set_list
    (Fileread.evaluate_query py_float fl_gt fl_lt set_list n d) q
  <> Ok (Some t).
Proof.
  intros. unfold Fileread.difference.
  destruct (Py.split ") - (" q) as [|s0 [|s1 [|x rest]]]; try discriminate.
  destruct n as [|n]; [discriminate|].
  change ("(" ++ Py.strip s1)%string with (String "(" (Py.strip s1)).
  rewrite evaluate_query_paren.
  destruct (Fileread.evaluate_query py_float fl_gt fl_lt set_list (S n) d
              (Py.strip s0 ++ ")")%string) as [lv|e]; simpl; [|discriminate].
  destruct lv as [[|lh lt]|]; discriminate.
Qed.

End DifferenceFacts.

(** * Selection *)

Module SelectionFacts.

Lemma mapM_forallb : forall {A} (f : A -> result bool) l ys,
  mapM f l = Ok ys ->
  (forallb (fun b => b) ys = true <-> forall x, In x l -> f x = Ok true).
Proof.
  intros A f l; induction l as [|x l IH]; intros ys H; simpl in H.
  - injection H as <-. simpl. split; [intros _ x []|reflexivity].
  - destruct (f x) as [y|e] eqn:Ex; [|discriminate]. simpl in H.
    destruct (mapM f l) as [ys'|e] eqn:El; [|discriminate]. simpl in H.
    injection H as <-. simpl. rewrite andb_true_iff, (IH ys' eq_refl).
    split.
    + intros [-> Hall] z [<-|Hz]; [exact Ex|apply Hall, Hz].
    + intros Hall. split.
      * specialize (Hall x (or_introl eq_refl)). congruence.
      * intros z Hz. apply Hall. right. exact Hz.
Qed.

Lemma filterM_spec : forall {A} (p : A -> result bool) l ys,
  filterM p l = Ok ys ->
  (forall x, In x l -> exists b, p x = Ok b) /\
  (forall x, In x ys <-> In x l /\ p x = Ok true).
Proof.
  intros A p l; induction l as [|x l IH]; intros ys H; simpl in H.
  - injection H as <-. split; [intros x []|]. intros x; simpl; tauto.
  - destruct (p x) as [b|e] eqn:Ex; [|discriminate]. simpl in H.
    destruct (filterM p l) as [ys'|e] eqn:El; [|discriminate]. simpl in H.
    injection H as <-. destruct (IH ys' eq_refl) as [IH1 IH2]. split.
    + intros z [<-|Hz]; [exists b; exact Ex|apply IH1, Hz].
    + intros z. destruct b; simpl; rewrite IH2; split.
      * intros [<-|[Hz Pz]]; [split; [left|]; auto|split; [right|]; auto].
      * intros [[<-|Hz] Pz]; [left; reflexivity|right; auto].
      * intros [Hz Pz]; split; [right|]; auto.
      * intros [[<-|Hz] Pz]; [congruence|auto].
Qed.

Lemma filterM_all_false : forall {A} (p : A -> result bool) l,
  (forall x, In x l -> p x = Ok false) -> filterM p l = Ok [].
Proof.
  intros A p l; induction l as [|x l IH]; intros H; simpl; [reflexivity|].
  rewrite (H x (or_introl eq_refl)). simpl.
  rewrite IH by (intros z Hz; apply H; right; exact Hz). reflexivity.
Qed.

Lemma mapM_all_false : forall {A} (f : A -> result bool) l,
  (forall x, In x l -> f x = Ok false) ->
  l <> [] -> exists ys, mapM f l = Ok ys /\ forallb (fun b => b) ys = false.
Proof.
  intros A f l; induction l as [|x l IH]; intros H Hne; [contradiction|].
  simpl. rewrite (H x (or_introl eq_refl)). simpl.
  destruct l as [|y l].
  - exists [false]. split; reflexivity.
  - destruct IH as [ys [E _]]; [intros z Hz; apply H; right; exact Hz|discriminate|].
    rewrite E. simpl. exists (false :: ys). split; reflexivity.
Qed.

Lemma nonempty_iff : forall s, Fileread.nonempty s = true <-> s <> EmptyString.
Proof.
  intros s. unfold Fileread.nonempty. rewrite negb_true_iff, String.eqb_neq.
  reflexivity.
Qed.

Lemma evaluate_conditions_all : forall {Fl} (py_float : string -> option Fl)
  fl_gt fl_lt d r cs b,
  Fileread.evaluate_conditions py_float fl_gt fl_lt d r cs = Ok b ->
  (b = true <-> forall c, In c cs -> c <> EmptyString ->
                Fileread.eval_one py_float fl_gt fl_lt d r c = Ok true).
Proof.
  intros Fl py_float fl_gt fl_lt d r cs b H.
  unfold Fileread.evaluate_conditions in H.
  destruct (mapM _ _) as [ys|e] eqn:E; [|discriminate]. simpl in H.
  injection H as <-. rewrite (mapM_forallb _ _ _ E). split.
  - intros Hall c Hc Hne. apply Hall, filter_In. split; [exact Hc|].
    apply nonempty_iff, Hne.
  - intros Hall c Hc. apply filter_In in Hc as [Hc Hne].
    apply Hall; [exact Hc|]. apply nonempty_iff, Hne.
Qed.

Lemma index_of_in : forall a l, In a l ->
  exists i, index_of a l = Some i /\ i < length l.
Proof.
  intros a l; induction l as [|x l IH]; intros H; [destruct H|]. simpl.
  destruct (String.eqb x a) eqn:E.
  - exists 0. split; [reflexivity|simpl; lia].
  - destruct H as [<-|H]; [rewrite String.eqb_refl in E; discriminate|].
    destruct (IH H) as [i [-> Hi]]. exists (S i). simpl. split; [reflexivity|lia].
Qed.

Lemma getitem_lt : forall {A} (l : list A) i, i < length l ->
  exists x, Py.getitem l i = Ok x.
Proof.
  intros A l i H. unfold Py.getitem.
  destruct (nth_error l i) as [x|] eqn:E; [exists x; reflexivity|].
  apply nth_error_None in E. lia.
Qed.

Lemma evaluate_condition_unknown : forall {Fl} (py_float : string -> option Fl)
  fl_gt fl_lt op v c,
  op <> ">" -> op <> "<" -> op <> "=" ->
  evaluate_condition py_float fl_gt fl_lt v op c = Ok false.
Proof.
  intros Fl py_float fl_gt fl_lt op v c H1 H2 H3. unfold evaluate_condition.
  apply String.eqb_neq in H1, H2, H3. rewrite H1, H2, H3. reflexivity.
Qed.

End SelectionFacts.

(** * Union and the batch loop *)

Module UnionFacts.

Lemma nodup_rows_spec : forall l,
  NoDup (nodup_rows l) /\ forall x, In x (nodup_rows l) <-> In x l.
Proof.
  intros l. split; [apply NoDup_nodup|]. intros x. apply nodup_In.
Qed.

Lemma mem_false_iff : forall r rs, mem r rs = false <-> ~ In r rs.
Proof.
  intros r rs. unfold mem. rewrite <- not_true_iff_false, existsb_exists.
  split.
  - intros H Hin. apply H. exists r. split; [exact Hin|].
    unfold row_eqb. destruct (list_eq_dec string_dec r r); congruence.
  - intros H [x [Hx E]]. unfold row_eqb in E.
    destruct (list_eq_dec string_dec r x) as [->|]; [contradiction|discriminate].
Qed.

Lemma write_report_blocks : forall eval_line queries,
  one_entry_per_line eval_line queries
    (write_report (process_queries eval_line queries)).
Proof.
  intros eval_line queries. induction queries as [|q qs IH].
  - exists []. repeat split; constructor.
  - destruct IH as [blocks [Hlen [Hrep Hall]]].
    set (body := match eval_line (Py.strip q) with
                 | Ok (Some t) => t | _ => [] end).
    exists (([Py.strip q] :: body ++ [[]]) :: blocks). split; [simpl; lia|].
    split.
    + unfold write_report, process_queries in *. simpl. rewrite Hrep.
      unfold body. destruct (eval_line (Py.strip q)) as [[t|]|e]; reflexivity.
    + constructor; [|exact Hall]. exists body. split; [reflexivity|].
      unfold body. split; intros ? ->; reflexivity.
Qed.

End UnionFacts.

(** * The claims *)

Module Claims.
Import PyFacts CrossFacts.

(** C3: for every pair of stored relations [A] and [B] (named [a] and [b]),
    the cross product [X (a * b)] has the attributes of [A] followed by those
    of [B] (so [|A.attrs| + |B.attrs|] of them) and [|A.rows| * |B.rows|]
    rows: for each left row in order, one concatenated row per right row in
    order, i.e. row [i * |B.rows| + j] is left row [i] followed by right
    row [j]. *)
Theorem crossproduct_cartesian : forall d a b A B,
  a <> EmptyString -> b <> EmptyString -> Py.strip a = a -> Py.strip b = b ->
  avoids ["("; ")"; "*"]%char a = true -> avoids ["("; ")"; "*"]%char b = true ->
  lookup d a = Some A -> lookup d b = Some B ->
  exists rows,
    Fileread.crossproduct d ("X (" ++ a ++ " * " ++ b ++ ")")%string
      = Ok ((attributes A ++ attributes B) :: rows) /\
    length (attributes A ++ attributes B)
      = length (attributes A) + length (attributes B) /\
    length rows = length (data A) * length (data B) /\
    rows = flat_map (fun l => map (fun r => l ++ r) (data B)) (data A) /\
    (forall i j l r, nth_error (data A) i = Some l ->
       nth_error (data B) j = Some r ->
       nth_error rows (i * length (data B) + j) = Some (l ++ r)).
Proof.
  intros d a b A B Ha Hb Sa Sb Pa Pb LA LB.
  pose proof (cross_operands a b Ha Hb Sa Sb Pa Pb) as E.
  unfold Fileread.crossproduct.
  destruct (Py.split "*" (relation_part ("X (" ++ a ++ " * " ++ b ++ ")")%string))
    as [|l [|r [|x rest]]]; try discriminate.
  injection E as El Er. rewrite El, Er.
  unfold Fileread.get_relation_data. rewrite LA, LB. simpl.
  eexists. split; [reflexivity|].
  split; [apply length_app|].
  split; [apply cross_rows_length|].
  split; [reflexivity|].
  apply cross_rows_nth.
Qed.

Lemma crossproduct_cartesian_witness :
  exists rows,
    Fileread.crossproduct sample_db "X (EMP * DEPT)"
      = Ok ((attributes EMP ++ attributes DEPT) :: rows) /\
    length (attributes EMP ++ attributes DEPT)
      = length (attributes EMP) + length (attributes DEPT) /\
    length rows = length (data EMP) * length (data DEPT) /\
    rows = flat_map (fun l => map (fun r => l ++ r) (data DEPT)) (data EMP) /\
    (forall i j l r, nth_error (data EMP) i = Some l ->
       nth_error (data DEPT) j = Some r ->
       nth_error rows (i * length (data DEPT) + j) = Some (l ++ r)).
Proof.
  apply (crossproduct_cartesian sample_db "EMP" "DEPT" EMP DEPT);
    (discriminate || reflexivity).
Defined.

(** C8 (as stated: refuted): for the nested query
    [PROJ (SELE (EMP) {salary > '60'}) {name}] the text between the first
    ['('] and the last [')'] is [SELE (EMP) {salary > '60'}], but the
    operand the parser extracts is [EMP]. *)
Lemma relation_part_nested_counterexample :
  relation_part "PROJ (SELE (EMP) {salary > '60'}) {name}" = "EMP" /\
  relation_part "PROJ (SELE (EMP) {salary > '60'}) {name}"
    <> "SELE (EMP) {salary > '60'}".
Proof. split; [reflexivity|discriminate]. Qed.

(** C8 (amended): the operand portion of a Select or Project line is the
    text after the last ['('] up to the first [')'] after it, with
    surrounding whitespace stripped. *)
Theorem relation_part_last_open : forall pre mid post,
  Py.contains "(" mid = false -> Py.contains ")" mid = false ->
  Py.contains "(" post = false ->
  relation_part (pre ++ "(" ++ mid ++ ")" ++ post)%string = Py.strip mid.
Proof. exact OperandFacts.relation_part_app. Qed.

Lemma relation_part_last_open_witness :
  relation_part ("PROJ (SELE " ++ "(" ++ " EMP " ++ ")" ++ " {salary > '60'}) {name}")%string
    = Py.strip " EMP ".
Proof. apply relation_part_last_open; reflexivity. Defined.

(** C1 (code bug): [Fileread.selection] resolves the attribute of a
    predicate with [get_attribute_index], which scans every stored relation
    in dictionary order.  On [SELE (B) {z = '1'}], where [z] is an attribute
    of [A] only, no error is raised: the index of [z] in [A] (0) is used on
    the rows of [B].  The sibling [Newonetest.selection] resolves the name in
    the source relation and raises [ValueError]. *)
Theorem selection_attribute_other_relation :
  Fileread.get_attribute_index db_other_first "z" = Ok 0 /\
  index_of "z" (attributes (mkRel ["id"] [["1"]; ["2"]])) = None /\
  Fileread.selection nat_float nat_gt nat_lt db_other_first "SELE (B) {z = '1'}"
    = Ok [["id"]; ["1"]] /\
  Newonetest.selection nat_float nat_gt nat_lt db_other_first "SELE (B) {z = '1'}"
    = Raise ValueError.
Proof. repeat split; vm_compute; reflexivity. Qed.

(** C6 (code bug, same defect as C1): with [A(x, y)] stored before
    [B(y, x)], [SELE (B) {y = '1'}] compares column 1 of [B] (its [x]): it
    keeps the row [(y, x) = ("2", "1")], whose [y] is ["2"], and drops
    [("1", "2")], whose [y] is ["1"]. *)
Theorem selection_keeps_unsatisfying_row :
  Fileread.selection nat_float nat_gt nat_lt db_swapped "SELE (B) {y = '1'}"
    = Ok [["y"; "x"]; ["2"; "1"]] /\
  index_of "y" ["y"; "x"] = Some 0 /\
  nth_error ["2"; "1"] 0 = Some "2" /\ "2" <> "1".
Proof. repeat split; try vm_compute; try reflexivity. discriminate. Qed.

(** C5 (code bug): [Fileread.difference] never produces a relation: the
    right sub-query is rebuilt as ["(" + ...], which [evaluate_query]
    dispatches to no operator, so the result is [None] (or an exception).
    [EMP - EMP] yields [None], not the header of [EMP] with zero rows, and
    its report entry has no rows at all.  In [newonetest.py],
    [execute_query] calls the one-argument [difference] with two arguments:
    [TypeError]. *)
Theorem difference_no_result :
  (forall Fl (py_float : string -> option Fl) fl_gt fl_lt set_list n d q t,
     Fileread.difference set_list
       (Fileread.evaluate_query py_float fl_gt fl_lt set_list n d) q
     <> Ok (Some t)) /\
  Fileread.difference nodup_rows
    (Fileread.evaluate_query nat_float nat_gt nat_lt nodup_rows 100 sample_db)
    "(PROJ (EMP) {id}) - (PROJ (EMP) {id})" = Ok None /\
  Fileread.dispatch nat_float nat_gt nat_lt nodup_rows 100 sample_db
    "-(PROJ (EMP) {id}) - (PROJ (EMP) {id})" = Ok None /\
  Fileread.process_queries_from_file nat_float nat_gt nat_lt nodup_rows 100
    sample_db ["-(PROJ (EMP) {id}) - (PROJ (EMP) {id})"]
    = [["-(PROJ (EMP) {id}) - (PROJ (EMP) {id})"]; []] /\
  Newonetest.execute_query nat_float nat_gt nat_lt 10 sample_db
    "SELE (EMP) {id = '1'} - SELE (EMP) {id = '1'}" = Raise TypeError.
Proof.
  split; [exact DifferenceFacts.difference_never_relation|].
  repeat split; vm_compute; reflexivity.
Qed.

(** C2: in [Fileread.selection], when the condition text is a compound
    split on [AND] (or, when it has no [AND], on [OR]), a source row is
    kept exactly when every non-empty predicate holds for it: the [OR]
    separator is evaluated with AND semantics too. *)
Theorem selection_all_predicates :
  forall {Fl} (py_float : string -> option Fl) fl_gt fl_lt d q rel s sep out,
  lookup d (relation_part q) = Some rel -> brace_part q = Ok s ->
  (sep = "AND" /\ Py.contains "AND" s = true) \/
  (sep = "OR" /\ Py.contains "AND" s = false /\ Py.contains "OR" s = true) ->
  Fileread.selection py_float fl_gt fl_lt d q = Ok out ->
  exists kept, out = attributes rel :: kept /\
    forall r, In r kept <->
      In r (data rel) /\
      (forall c, In c (map Py.strip (Py.split sep s)) -> c <> EmptyString ->
         Fileread.eval_one py_float fl_gt fl_lt d r c = Ok true).
Proof.
  intros Fl py_float fl_gt fl_lt d q rel s sep out Hl Hb Hsep H.
  assert (Hp : Fileread.parse_conditions s = map Py.strip (Py.split sep s)).
  { unfold Fileread.parse_conditions.
    destruct Hsep as [[-> E]|[-> [E1 E2]]]; [rewrite E|rewrite E1, E2]; reflexivity. }
  unfold Fileread.selection in H. rewrite Hb in H. simpl in H. rewrite Hl in H.
  rewrite Hp in H.
  destruct (filterM _ _) as [kept|e] eqn:E; [|discriminate]. simpl in H.
  injection H as <-. exists kept. split; [reflexivity|].
  destruct (SelectionFacts.filterM_spec _ _ _ E) as [Htot Hmem].
  intros r. rewrite Hmem. split.
  - intros [Hr Hev]. split; [exact Hr|].
    apply (SelectionFacts.evaluate_conditions_all _ _ _ _ _ _ _ Hev). reflexivity.
  - intros [Hr Hall]. split; [exact Hr|].
    destruct (Htot r Hr) as [b Hev]. rewrite Hev.
    apply (SelectionFacts.evaluate_conditions_all _ _ _ _ _ _ _ Hev) in Hall.
    congruence.
Qed.

Lemma selection_all_predicates_witness :
  exists kept,
    Fileread.selection nat_float nat_gt nat_lt sample_db
      "SELE (EMP) {salary > '60' OR id = '1'}"
      = Ok (attributes EMP :: kept) /\
    forall r, In r kept <->
      In r (data EMP) /\
      (forall c, In c (map Py.strip (Py.split "OR" "salary > '60' OR id = '1'")) ->
         c <> EmptyString ->
         Fileread.eval_one nat_float nat_gt nat_lt sample_db r c = Ok true).
Proof.
  destruct (selection_all_predicates nat_float nat_gt nat_lt sample_db
              "SELE (EMP) {salary > '60' OR id = '1'}" EMP
              "salary > '60' OR id = '1'" "OR" [attributes EMP])
    as [kept [E H]].
  - reflexivity.
  - reflexivity.
  - right. split; [reflexivity|split; reflexivity].
  - vm_compute. reflexivity.
  - exists kept. split; [rewrite <- E; reflexivity|exact H].
Defined.

(** C9: for an operator token other than [>], [<] and [=],
    [evaluate_condition] returns [False] and raises nothing; so a selection
    whose predicates use such a token yields no rows instead of an error,
    once the rest of the query is well formed: in [newonetest.py] (one
    predicate, attribute of the source relation, rows of full arity) the
    result is the empty list; in [Fileread.py] (every non-empty predicate
    with that token, attribute index within every row) the result is the
    header alone. *)
Theorem unknown_operator_no_rows :
  forall {Fl} (py_float : string -> option Fl) fl_gt fl_lt op,
  op <> ">" -> op <> "<" -> op <> "=" ->
  (forall v c, evaluate_condition py_float fl_gt fl_lt v op c = Ok false) /\
  (forall d q rel cond a v,
     lookup d (relation_part q) = Some rel -> brace_part q = Ok cond ->
     Py.split_ws cond = [a; op; v] -> In a (attributes rel) ->
     (forall r, In r (data rel) -> length r = length (attributes rel)) ->
     Newonetest.selection py_float fl_gt fl_lt d q = Ok []) /\
  (forall d q rel cond,
     lookup d (relation_part q) = Some rel -> brace_part q = Ok cond ->
     filter Fileread.nonempty (Fileread.parse_conditions cond) <> [] ->
     (forall c, In c (filter Fileread.nonempty (Fileread.parse_conditions cond)) ->
        exists a v i, Py.split_ws c = [a; op; v] /\
          Fileread.get_attribute_index d a = Ok i /\
          forall r, In r (data rel) -> i < length r) ->
     Fileread.selection py_float fl_gt fl_lt d q = Ok [attributes rel]).
Proof.
  intros Fl py_float fl_gt fl_lt op H1 H2 H3.
  pose proof (fun v c => SelectionFacts.evaluate_condition_unknown
                py_float fl_gt fl_lt op v c H1 H2 H3) as Hop.
  split; [exact Hop|]. split.
  - intros d q rel cond a v Hl Hb Hs Ha Har.
    unfold Newonetest.selection. rewrite Hb. simpl. rewrite Hl, Hs.
    destruct (SelectionFacts.index_of_in a (attributes rel) Ha) as [i [Ei Hi]].
    rewrite Ei. apply SelectionFacts.filterM_all_false.
    intros r Hr. destruct (SelectionFacts.getitem_lt r i) as [x Ex].
    { rewrite Har by exact Hr. exact Hi. }
    rewrite Ex. simpl. apply Hop.
  - intros d q rel cond Hl Hb Hne Hall.
    unfold Fileread.selection. rewrite Hb. simpl. rewrite Hl.
    rewrite SelectionFacts.filterM_all_false; [reflexivity|].
    intros r Hr. unfold Fileread.evaluate_conditions.
    destruct (SelectionFacts.mapM_all_false
                (Fileread.eval_one py_float fl_gt fl_lt d r)
                (filter Fileread.nonempty (Fileread.parse_conditions cond)))
      as [ys [E F]];
      [|exact Hne|rewrite E; simpl; rewrite F; reflexivity].
    intros c Hc. destruct (Hall c Hc) as [a [v [i [Hs [Hi Hlt]]]]].
    unfold Fileread.eval_one. rewrite Hs, Hi. simpl.
    destruct (SelectionFacts.getitem_lt r i (Hlt r Hr)) as [x Ex].
    rewrite Ex. simpl. apply Hop.
Qed.

Lemma unknown_operator_no_rows_witness :
  evaluate_condition nat_float nat_gt nat_lt "50" ">=" "60" = Ok false /\
  Newonetest.selection nat_float nat_gt nat_lt sample_db
    "SELE (EMP) {salary >= '60'}" = Ok [] /\
  Fileread.selection nat_float nat_gt nat_lt sample_db
    "SELE (EMP) {salary >= '60'}" = Ok [attributes EMP].
Proof.
  assert (N1 : ">=" <> ">") by discriminate.
  assert (N2 : ">=" <> "<") by discriminate.
  assert (N3 : ">=" <> "=") by discriminate.
  destruct (unknown_operator_no_rows nat_float nat_gt nat_lt ">=" N1 N2 N3)
    as [A [B C]].
  split; [apply A|split].
  - apply (B sample_db "SELE (EMP) {salary >= '60'}" EMP "salary >= '60'"
             "salary" "'60'"); try reflexivity.
    + simpl. right. right. left. reflexivity.
    + intros r Hr. simpl in Hr.
      destruct Hr as [<-|[<-|[]]]; reflexivity.
  - apply (C sample_db "SELE (EMP) {salary >= '60'}" EMP "salary >= '60'");
      try reflexivity.
    + simpl. discriminate.
    + intros c Hc. simpl in Hc. destruct Hc as [<-|[]].
      exists "salary", "'60'", 2. split; [reflexivity|split; [reflexivity|]].
      intros r Hr. simpl in Hr. destruct Hr as [<-|[<-|[]]]; simpl; lia.
Defined.

(** Claim C4, counterexample for [newonetest.py]: its [union] performs no
    schema check, so operands with different attribute sequences ([EMP] has
    three, [DEPT] two) are merged without any error, rows of both widths
    mixed and no header. *)
Lemma union_schema_newonetest_counterexample :
  attributes EMP <> attributes DEPT /\
  Newonetest.execute_query nat_float nat_gt nat_lt 10 sample_db
    "SELE (EMP) {id = '1'} U SELE (DEPT) {id = '1'}"
  = Ok [["1"; "Al"; "50"]; ["1"; "Eng"]].
Proof. split; [discriminate|vm_compute; reflexivity]. Qed.

(** C4: Fileread's [union] on two stored relations [A] and [B] raises
    [ValueError] (schema mismatch) when their attribute lists differ; when
    they are equal the result is that attribute list followed by rows
    without duplicates that are exactly the rows of [A] or of [B]. *)
Theorem union_schema_and_rows :
  forall set_list : list row -> list row,
  (forall l, NoDup (set_list l) /\ forall x, In x (set_list l) <-> In x l) ->
  forall d q l r A B,
  Py.split "U" (relation_part q) = [l; r] ->
  lookup d (Py.strip l) = Some A -> lookup d (Py.strip r) = Some B ->
  (attributes A <> attributes B ->
     Fileread.union set_list d q = Raise ValueError) /\
  (attributes A = attributes B ->
     exists rows, Fileread.union set_list d q = Ok (attributes A :: rows) /\
       NoDup rows /\ forall x, In x rows <-> In x (data A) \/ In x (data B)).
Proof.
  intros set_list Hset d q l r A B Hs HA HB.
  unfold Fileread.union, Fileread.get_relation_data. rewrite Hs, HA, HB. simpl.
  destruct (list_eq_dec string_dec (attributes A) (attributes B)) as [E|E].
  - split; [contradiction|]. intros _.
    destruct (Hset (data A ++ data B)) as [Hn Hm].
    eexists. split; [reflexivity|]. split; [exact Hn|].
    intros x. rewrite Hm. apply in_app_iff.
  - split; [reflexivity|contradiction].
Qed.

Lemma union_schema_and_rows_witness :
  (attributes EMP <> attributes EMP ->
     Fileread.union nodup_rows sample_db "U (EMP U EMP)" = Raise ValueError) /\
  (attributes EMP = attributes EMP ->
     exists rows,
       Fileread.union nodup_rows sample_db "U (EMP U EMP)"
         = Ok (attributes EMP :: rows) /\
       NoDup rows /\ forall x, In x rows <-> In x (data EMP) \/ In x (data EMP)).
Proof.
  apply (union_schema_and_rows nodup_rows UnionFacts.nodup_rows_spec sample_db
           "U (EMP U EMP)" "EMP " " EMP" EMP EMP); reflexivity.
Defined.

(** C7: in both files, whatever each line evaluates to (a result, [None]
    or a raised exception, including [RecursionError]), the report has
    exactly one block per input line, in input order: the query, the rows
    of a list result, an empty record. *)
Theorem batch_one_entry_per_line :
  forall {Fl} (py_float : string -> option Fl) fl_gt fl_lt set_list fuel d
    queries,
  one_entry_per_line (Fileread.dispatch py_float fl_gt fl_lt set_list fuel d)
    queries
    (Fileread.process_queries_from_file py_float fl_gt fl_lt set_list fuel d
       queries) /\
  one_entry_per_line
    (fun q => t <- Newonetest.execute_query py_float fl_gt fl_lt fuel d q ;;
              Ok (Some t))
    queries
    (Newonetest.process_queries_from_file py_float fl_gt fl_lt fuel d queries).
Proof.
  intros. split; apply UnionFacts.write_report_blocks.
Qed.

(** C10: [Newonetest.union] returns the left operand's rows in their order
    followed by the right operand's rows that do not occur among the left
    rows, in their order; nothing else is removed and no schema is
    compared. *)
Theorem union_left_then_new_right :
  forall (execute_query : string -> result table) lq rq L R,
  execute_query lq = Ok L -> execute_query rq = Ok R ->
  exists R', Newonetest.union execute_query lq rq = Ok (L ++ R') /\
    R' = filter (fun r => negb (mem r L)) R /\
    (forall x, In x R' <-> In x R /\ ~ In x L).
Proof.
  intros ex lq rq L R HL HR. unfold Newonetest.union. rewrite HL, HR. simpl.
  eexists. split; [reflexivity|]. split; [reflexivity|].
  intros x. rewrite filter_In, negb_true_iff, UnionFacts.mem_false_iff.
  reflexivity.
Qed.

Lemma union_left_then_new_right_witness :
  exists R',
    Newonetest.union (Newonetest.execute_query nat_float nat_gt nat_lt 10 sample_db)
      "SELE (EMP) {salary > '10'}" "SELE (DEPT) {id = '1'}"
      = Ok ([["1"; "Al"; "50"]; ["2"; "Bo"; "90"]] ++ R') /\
    R' = filter (fun r => negb (mem r [["1"; "Al"; "50"]; ["2"; "Bo"; "90"]]))
           [["1"; "Eng"]] /\
    (forall x, In x R' <-> In x [["1"; "Eng"]] /\
                           ~ In x [["1"; "Al"; "50"]; ["2"; "Bo"; "90"]]).
Proof. apply union_left_then_new_right; vm_compute; reflexivity. Defined.

End Claims.

(** * Further properties of the evaluators *)

Module ExtraFacts.
Import PyFacts.

Lemma index_of_none : forall a l, index_of a l = None <-> ~ In a l.
Proof.
  intros a l; induction l as [|x l IH]; simpl; [tauto|].
  destruct (String.eqb x a) eqn:E.
  - apply String.eqb_eq in E as ->. split; [discriminate|tauto].
  - apply String.eqb_neq in E. destruct (index_of a l) eqn:El; simpl.
    + split; [discriminate|]. intros H. exfalso.
      assert (Hl : ~ In a l) by (intros Hi; apply H; right; exact Hi).
      apply IH in Hl. discriminate.
    + split; [|reflexivity]. intros _ [H|H]; [congruence|].
      apply (proj1 IH eq_refl), H.
Qed.

Lemma index_of_some : forall a l i, index_of a l = Some i ->
  nth_error l i = Some a /\ forall j, j < i -> nth_error l j <> Some a.
Proof.
  intros a l; induction l as [|x l IH]; intros i H; simpl in H; [discriminate|].
  destruct (String.eqb x a) eqn:E.
  - injection H as <-. apply String.eqb_eq in E as ->.
    split; [reflexivity|intros j Hj; lia].
  - destruct (index_of a l) as [k|]; [|discriminate]. injection H as <-.
    destruct (IH k eq_refl) as [H1 H2]. split; [exact H1|].
    intros [|j] Hj; simpl.
    + apply String.eqb_neq in E. congruence.
    + apply H2. lia.
Qed.

Lemma index_of_first : forall a l i,
  nth_error l i = Some a -> (forall j, j < i -> nth_error l j <> Some a) ->
  index_of a l = Some i.
Proof.
  intros a l; induction l as [|x l IH]; intros i H1 H2; [destruct i; discriminate|].
  simpl. destruct (String.eqb x a) eqn:E.
  - destruct i as [|i]; [reflexivity|].
    apply String.eqb_eq in E as ->. exfalso. apply (H2 0); [lia|reflexivity].
  - destruct i as [|i]; simpl in H1.
    + injection H1 as ->. rewrite String.eqb_refl in E. discriminate.
    + rewrite (IH i H1); [reflexivity|]. intros j Hj. apply (H2 (S j)). lia.
Qed.

Lemma mapM_raise : forall {A B} (f : A -> result B) l x e,
  In x l -> f x = Raise e -> exists e', mapM f l = Raise e'.
Proof.
  intros A B f l; induction l as [|y l IH]; intros x e Hx Hf; [destruct Hx|].
  simpl. destruct (f y) as [b|e'] eqn:Ey; simpl; [|exists e'; reflexivity].
  destruct Hx as [->|Hx]; [congruence|].
  destruct (IH x e Hx Hf) as [e' ->]. exists e'. reflexivity.
Qed.

Lemma filterM_all_true : forall {A} (p : A -> result bool) l,
  (forall x, In x l -> p x = Ok true) -> filterM p l = Ok l.
Proof.
  intros A p l; induction l as [|x l IH]; intros H; simpl; [reflexivity|].
  rewrite (H x (or_introl eq_refl)). simpl.
  rewrite IH by (intros z Hz; apply H; right; exact Hz). reflexivity.
Qed.

Lemma cons_hd_length : forall d l, l <> [] -> length (Py.cons_hd d l) = length l.
Proof. intros d [|x l] H; [contradiction|reflexivity]. Qed.

(** A one-character split has one piece more than there are separators. *)
Lemma split1_length : forall c s,
  length (Py.split (sep1 c) s) = S (count_char c s).
Proof.
  intros c s; induction s as [|d s IH]; [reflexivity|].
  rewrite split1_cons. simpl. destruct (Ascii.eqb c d).
  - simpl. rewrite IH. reflexivity.
  - rewrite cons_hd_length by apply split_go_nonempty. rewrite IH. reflexivity.
Qed.

Lemma filter_all_false : forall {A} (f : A -> bool) l,
  (forall x, In x l -> f x = false) -> filter f l = [].
Proof.
  intros A f l; induction l as [|x l IH]; intros H; simpl; [reflexivity|].
  rewrite (H x (or_introl eq_refl)). apply IH. intros z Hz. apply H. right. exact Hz.
Qed.

(** [strip] is idempotent. *)
Lemma lstrip_idem : forall p s, Py.lstrip_by p (Py.lstrip_by p s) = Py.lstrip_by p s.
Proof.
  intros p s; induction s as [|c s IH]; simpl; [reflexivity|].
  destruct (p c) eqn:E; [exact IH|simpl; rewrite E; reflexivity].
Qed.

Lemma rstrip_idem : forall p s, Py.rstrip_by p (Py.rstrip_by p s) = Py.rstrip_by p s.
Proof.
  intros p s; induction s as [|c s IH]; simpl; [reflexivity|].
  destruct (Py.rstrip_by p s) as [|d r] eqn:E.
  - destruct (p c) eqn:Ec; simpl; [reflexivity|rewrite Ec; reflexivity].
  - change (Py.rstrip_by p (String c (String d r))) with
      (match Py.rstrip_by p (String d r) with
       | EmptyString => if p c then EmptyString else String c EmptyString
       | _ => String c (Py.rstrip_by p (String d r))
       end).
    rewrite IH. reflexivity.
Qed.

Lemma lstrip_rstrip : forall p s, Py.lstrip_by p s = s ->
  Py.lstrip_by p (Py.rstrip_by p s) = Py.rstrip_by p s.
Proof.
  intros p [|c t] H; [reflexivity|]. simpl in H.
  destruct (p c) eqn:Ec.
  - pose proof (lstrip_length p t) as L. rewrite H in L. simpl in L. lia.
  - simpl. destruct (Py.rstrip_by p t); [rewrite Ec|]; simpl; rewrite Ec; reflexivity.
Qed.

Lemma strip_idem : forall s, Py.strip (Py.strip s) = Py.strip s.
Proof.
  intros s. unfold Py.strip.
  rewrite lstrip_rstrip by apply lstrip_idem. apply rstrip_idem.
Qed.

Lemma mapM_ok_map : forall {A B} (f : A -> result B) (g : A -> B) l,
  (forall x, In x l -> f x = Ok (g x)) -> mapM f l = Ok (map g l).
Proof.
  intros A B f g l; induction l as [|x l IH]; intros H; simpl; [reflexivity|].
  rewrite (H x (or_introl eq_refl)). simpl.
  rewrite IH by (intros z Hz; apply H; right; exact Hz). reflexivity.
Qed.

Lemma mapM_map : forall {A B C} (f : B -> result C) (h : A -> B) l,
  mapM f (map h l) = mapM (fun x => f (h x)) l.
Proof.
  intros A B C f h l; induction l as [|x l IH]; simpl; [reflexivity|].
  rewrite IH. reflexivity.
Qed.

Lemma filterM_ext : forall {A} (p p' : A -> result bool) l,
  (forall x, In x l -> p x = p' x) -> filterM p l = filterM p' l.
Proof.
  intros A p p' l; induction l as [|x l IH]; intros H; simpl; [reflexivity|].
  rewrite (H x (or_introl eq_refl)), IH by (intros z Hz; apply H; right; exact Hz).
  reflexivity.
Qed.

(** The column lookup loop of both [projection]s. *)
Definition col_index (ra : list string) (a : string) : result nat :=
  match index_of a ra with Some i => Ok i | None => Raise ValueError end.

Lemma col_indices_ok : forall ra attrs, (forall a, In a attrs -> In a ra) ->
  mapM (col_index ra) attrs =
  Ok (map (fun a => match index_of a ra with Some i => i | None => 0 end) attrs).
Proof.
  intros ra attrs H. apply mapM_ok_map. intros a Ha. unfold col_index.
  destruct (index_of a ra) eqn:E; [reflexivity|].
  apply index_of_none in E. exfalso. apply E, H, Ha.
Qed.

Lemma col_indices_missing : forall ra attrs,
  (exists a, In a attrs /\ ~ In a ra) -> mapM (col_index ra) attrs = Raise ValueError.
Proof.
  intros ra attrs; induction attrs as [|b attrs IH]; intros [a [Ha Hn]]; [destruct Ha|].
  simpl. unfold col_index at 1. destruct (index_of b ra) as [i|] eqn:E; [|reflexivity].
  destruct Ha as [->|Ha].
  - destruct (index_of_some _ _ _ E) as [H1 _]. exfalso. apply Hn.
    eapply nth_error_In, H1.
  - simpl. rewrite IH by (exists a; split; assumption). reflexivity.
Qed.

Lemma project_row_ok : forall ra attrs r,
  (forall a, In a attrs -> In a ra) -> length r = length ra ->
  mapM (Py.getitem r)
    (map (fun a => match index_of a ra with Some i => i | None => 0 end) attrs)
  = Ok (project_row ra attrs r).
Proof.
  intros ra attrs r H L. unfold project_row. rewrite mapM_map. apply mapM_ok_map.
  intros a Ha. destruct (SelectionFacts.index_of_in a ra (H a Ha)) as [i [Ei Hi]].
  rewrite Ei. unfold Py.getitem. destruct (nth_error r i) eqn:N.
  - erewrite nth_error_nth; [reflexivity|exact N].
  - apply nth_error_None in N. lia.
Qed.

Lemma lookup_app : forall pre n r post,
  (forall p, In p pre -> fst p <> n) -> lookup (pre ++ (n, r) :: post) n = Some r.
Proof.
  intros pre n r post; induction pre as [|[m s] pre IH]; intros H; simpl.
  - rewrite String.eqb_refl. reflexivity.
  - destruct (String.eqb m n) eqn:E.
    + apply String.eqb_eq in E. exfalso. apply (H (m, s) (or_introl eq_refl)), E.
    + apply IH. intros p Hp. apply H. right. exact Hp.
Qed.

Lemma get_attribute_index_app : forall pre n r post a i,
  (forall p, In p pre -> ~ In a (attributes (snd p))) ->
  index_of a (attributes r) = Some i ->
  Fileread.get_attribute_index (pre ++ (n, r) :: post) a = Ok i.
Proof.
  intros pre n r post a i; induction pre as [|[m s] pre IH]; intros H Hi; simpl.
  - rewrite Hi. reflexivity.
  - destruct (index_of a (attributes s)) eqn:E.
    + exfalso. apply (H (m, s) (or_introl eq_refl)). simpl.
      destruct (index_of_some _ _ _ E) as [H1 _]. eapply nth_error_In, H1.
    + apply IH; [intros p Hp; apply H; right; exact Hp|exact Hi].
Qed.

(** [self.relations[k] = v] *)
Lemma dict_set_lookup : forall d k v k',
  lookup (dict_set d k v) k' = if String.eqb k k' then Some v else lookup d k'.
Proof.
  intros d k v k'; induction d as [|[n r] d IH]; simpl.
  - destruct (String.eqb k k'); reflexivity.
  - destruct (String.eqb n k) eqn:E.
    + apply String.eqb_eq in E as ->. simpl. destruct (String.eqb k k'); reflexivity.
    + simpl. rewrite IH. destruct (String.eqb n k') eqn:E'; [|reflexivity].
      apply String.eqb_eq in E' as ->. rewrite String.eqb_sym, E. reflexivity.
Qed.

Lemma dict_set_keys : forall d k v x,
  In x (map fst (dict_set d k v)) <-> x = k \/ In x (map fst d).
Proof.
  intros d k v x; induction d as [|[n r] d IH]; simpl.
  { split; intros [H|[]]; left; symmetry; exact H. }
  destruct (String.eqb n k) eqn:E; simpl.
  - apply String.eqb_eq in E as ->. split.
    + intros [H|H]; [left; symmetry; exact H|right; right; exact H].
    + intros [H|[H|H]]; [left; symmetry; exact H|left; exact H|right; exact H].
  - rewrite IH. tauto.
Qed.

Lemma dict_set_nodup : forall d k v, NoDup (map fst d) -> NoDup (map fst (dict_set d k v)).
Proof.
  intros d k v; induction d as [|[n r] d IH]; intros H; simpl.
  - constructor; [intros []|constructor].
  - inversion H as [|? ? Hn Hd]; subst. destruct (String.eqb n k) eqn:E; simpl.
    + apply String.eqb_eq in E as ->. constructor; assumption.
    + constructor; [|apply IH, Hd]. rewrite dict_set_keys.
      apply String.eqb_neq in E. intros [H1|H1]; [congruence|contradiction].
Qed.

Lemma load_relations_app : forall f1 f2 d,
  load_relations (f1 ++ f2) d =
  match load_relations f1 d with Some d' => load_relations f2 d' | None => None end.
Proof.
  intros f1; induction f1 as [|[fn recs] f1 IH]; intros f2 d; simpl; [reflexivity|].
  destruct (Py_endswith ".csv" fn); [|apply IH].
  destruct recs; [reflexivity|apply IH].
Qed.

Lemma substring_app_length : forall x y n,
  substring (String.length x) n (x ++ y)%string = substring 0 n y.
Proof. intros x y n; induction x as [|c x IH]; simpl; [reflexivity|exact IH]. Qed.

Lemma substring_prefix : forall x y, substring 0 (String.length x) (x ++ y)%string = x.
Proof.
  intros x y; induction x as [|c x IH]; simpl; [destruct y; reflexivity|].
  rewrite IH. reflexivity.
Qed.

Lemma sapp_length : forall x y : string,
  String.length (x ++ y)%string = String.length x + String.length y.
Proof. intros x y; induction x as [|c x IH]; simpl; [reflexivity|rewrite IH; reflexivity]. Qed.

(** ["(" + q + ")"] is wrapped, and its inner text is [q]. *)
Lemma wrap_endswith : forall q, Py_endswith ")" ("(" ++ q ++ ")")%string = true.
Proof.
  intros q. unfold Py_endswith. simpl String.length at 1.
  change ("(" ++ q ++ ")")%string with (String "(" (q ++ ")")).
  simpl String.length. rewrite sapp_length. simpl String.length.
  replace (S (String.length q + 1) - 1) with (S (String.length q)) by lia.
  simpl substring. rewrite substring_app_length. simpl. reflexivity.
Qed.

Lemma wrap_inner : forall q,
  substring 1 (String.length ("(" ++ q ++ ")")%string - 2) ("(" ++ q ++ ")")%string = q.
Proof.
  intros q. change ("(" ++ q ++ ")")%string with (String "(" (q ++ ")")).
  simpl String.length. rewrite sapp_length. simpl String.length.
  replace (S (String.length q + 1) - 2) with (String.length q) by lia.
  simpl substring. apply substring_prefix.
Qed.

Lemma strip_relation_part : forall q, Py.strip (relation_part q) = relation_part q.
Proof. intros q. unfold relation_part. apply strip_idem. Qed.

Lemma contains1_cons : forall c d y,
  Py.contains (sep1 c) (String d y) = Ascii.eqb c d || Py.contains (sep1 c) y.
Proof. intros c d y. simpl. rewrite andb_true_r. reflexivity. Qed.

Lemma contains1_empty : forall c, Py.contains (sep1 c) EmptyString = false.
Proof. reflexivity. Qed.

(** A piece of a one-character split contains neither the separator nor a
    character the whole string lacks. *)
Lemma split1_piece_contains : forall c c' s x,
  In x (Py.split (sep1 c) s) -> Py.contains (sep1 c') x = true ->
  c <> c' /\ Py.contains (sep1 c') s = true.
Proof.
  intros c c' s; induction s as [|d s IH]; intros x Hx Hc.
  - destruct Hx as [<-|[]]. discriminate.
  - rewrite split1_cons in Hx. rewrite contains1_cons.
    destruct (Ascii.eqb c d) eqn:E.
    + destruct Hx as [<-|Hx]; [discriminate|].
      destruct (IH x Hx Hc) as [H1 H2]. split; [exact H1|].
      rewrite H2, orb_true_r. reflexivity.
    + pose proof (split_go_nonempty (sep1 c) s 0) as Hne. fold (Py.split (sep1 c) s) in Hne.
      destruct (Py.split (sep1 c) s) as [|y l] eqn:Es; [contradiction|].
      simpl in Hx. destruct Hx as [<-|Hx].
      * rewrite contains1_cons in Hc. apply orb_true_iff in Hc as [Hc|Hc].
        -- apply Ascii.eqb_eq in Hc as <-. apply Ascii.eqb_neq in E.
           split; [exact E|]. rewrite Ascii.eqb_refl. reflexivity.
        -- destruct (IH y (or_introl eq_refl) Hc) as [H1 H2].
           split; [exact H1|]. rewrite H2, orb_true_r. reflexivity.
      * destruct (IH x (or_intror Hx) Hc) as [H1 H2]. split; [exact H1|].
        rewrite H2, orb_true_r. reflexivity.
Qed.

Lemma lstrip_contains : forall p c s,
  Py.contains (sep1 c) s = false -> Py.contains (sep1 c) (Py.lstrip_by p s) = false.
Proof.
  intros p c s; induction s as [|d s IH]; intros H; simpl; [reflexivity|].
  rewrite contains1_cons in H. apply orb_false_iff in H as [H1 H2].
  destruct (p d); [apply IH, H2|rewrite contains1_cons, H1, H2; reflexivity].
Qed.

Lemma rstrip_contains : forall p c s,
  Py.contains (sep1 c) s = false -> Py.contains (sep1 c) (Py.rstrip_by p s) = false.
Proof.
  intros p c s; induction s as [|d s IH]; intros H; simpl; [reflexivity|].
  rewrite contains1_cons in H. apply orb_false_iff in H as [H1 H2].
  specialize (IH H2). destruct (Py.rstrip_by p s) as [|e r].
  - destruct (p d); [reflexivity|]. rewrite contains1_cons, H1. reflexivity.
  - rewrite contains1_cons, H1. exact IH.
Qed.

Lemma strip_contains : forall c s,
  Py.contains (sep1 c) s = false -> Py.contains (sep1 c) (Py.strip s) = false.
Proof. intros c s H. apply rstrip_contains, lstrip_contains, H. Qed.

Lemma first_In : forall l, l <> [] -> In (Py.first l) l.
Proof. intros [|x l] H; [contradiction|left; reflexivity]. Qed.

Lemma last_of_In : forall l, l <> [] -> In (Py.last_of l) l.
Proof.
  intros l H. unfold Py.last_of. induction l as [|x l IH]; [contradiction|].
  destruct l as [|y l]; [left; reflexivity|]. right. apply IH. discriminate.
Qed.

(** The extracted operand has no parenthesis, so extracting again is the
    identity ([projection] hands it to [crossproduct], which extracts it
    again). *)
Lemma relation_part_parens : forall q,
  Py.contains "(" (relation_part q) = false /\ Py.contains ")" (relation_part q) = false.
Proof.
  intros q. unfold relation_part.
  set (x := Py.last_of (Py.split "(" q)).
  assert (Hx : In x (Py.split (sep1 "(") q))
    by (apply last_of_In, split_go_nonempty).
  assert (Hy : In (Py.first (Py.split ")" x)) (Py.split (sep1 ")") x))
    by (apply first_In, split_go_nonempty).
  split; apply (strip_contains _ _); destruct (Py.contains _ _) eqn:E; try reflexivity.
  - destruct (split1_piece_contains _ _ _ _ Hy E) as [_ E2].
    destruct (split1_piece_contains _ _ _ _ Hx E2) as [E3 _]. congruence.
  - destruct (split1_piece_contains _ _ _ _ Hy E) as [E3 _]. congruence.
Qed.

Lemma relation_part_idem : forall q, relation_part (relation_part q) = relation_part q.
Proof.
  intros q. destruct (relation_part_parens q) as [H1 H2].
  unfold relation_part at 1. rewrite (split1_notin "(" _ H1).
  change (Py.last_of [relation_part q]) with (relation_part q).
  rewrite (split1_notin ")" _ H2).
  change (Py.first [relation_part q]) with (relation_part q).
  apply strip_relation_part.
Qed.

End ExtraFacts.

Module Extras.
Import PyFacts ExtraFacts.

(** [Fileread.get_attribute_index] returns the first position of the
    attribute in the first relation, in dictionary order, that has it; it
    raises [ValueError], and nothing else, exactly when no stored relation
    has the attribute. *)
Theorem get_attribute_index_first_holder : forall d a,
  (forall i, Fileread.get_attribute_index d a = Ok i <->
     exists pre n r post, d = pre ++ (n, r) :: post /\
       (forall p, In p pre -> ~ In a (attributes (snd p))) /\
       nth_error (attributes r) i = Some a /\
       forall j, j < i -> nth_error (attributes r) j <> Some a) /\
  (forall e, Fileread.get_attribute_index d a = Raise e <->
     e = ValueError /\ forall p, In p d -> ~ In a (attributes (snd p))).
Proof.
  intros d a; induction d as [|[n r] d IH]; split.
  - intros i. simpl. split; [discriminate|].
    intros [pre [n [r [post [E _]]]]]. destruct pre; discriminate.
  - intros e. simpl. split; [intros H; injection H as <-; split; [reflexivity|tauto]|].
    intros [-> _]. reflexivity.
  - intros i. simpl. destruct (index_of a (attributes r)) as [k|] eqn:Ek.
    + split.
      * intros H. injection H as <-. exists [], n, r, d.
        destruct (index_of_some _ _ _ Ek) as [H1 H2].
        split; [reflexivity|split; [intros p []|split; assumption]].
      * intros [pre [n' [r' [post [E [Hpre [H1 H2]]]]]]].
        destruct pre as [|p pre].
        -- injection E as -> -> ->. rewrite (index_of_first _ _ _ H1 H2) in Ek.
           congruence.
        -- injection E as <- E. exfalso. apply (Hpre (n, r) (or_introl eq_refl)).
           simpl. eapply nth_error_In. destruct (index_of_some _ _ _ Ek).
           eassumption.
    + destruct IH as [IH _]. rewrite IH. split.
      * intros [pre [n' [r' [post [E [Hpre H]]]]]].
        exists ((n, r) :: pre), n', r', post. split; [rewrite E; reflexivity|].
        split; [|exact H]. intros p [<-|Hp]; [apply index_of_none, Ek|].
        apply Hpre, Hp.
      * intros [pre [n' [r' [post [E [Hpre H]]]]]].
        destruct pre as [|p pre].
        -- injection E as -> -> ->. destruct H as [H1 H2].
           rewrite (index_of_first _ _ _ H1 H2) in Ek. discriminate.
        -- injection E as <- E. exists pre, n', r', post.
           split; [exact E|]. split; [|exact H].
           intros p Hp. apply Hpre. right. exact Hp.
  - intros e. simpl. destruct (index_of a (attributes r)) as [k|] eqn:Ek.
    + split; [discriminate|]. intros [_ H]. exfalso.
      apply (H (n, r) (or_introl eq_refl)). simpl.
      destruct (index_of_some _ _ _ Ek) as [H1 _]. eapply nth_error_In, H1.
    + destruct IH as [_ IH]. rewrite IH. split.
      * intros [-> H]. split; [reflexivity|].
        intros p [<-|Hp]; [apply index_of_none, Ek|apply H, Hp].
      * intros [-> H]. split; [reflexivity|]. intros p Hp. apply H. right. exact Hp.
Qed.

(** [Fileread.selection] with no non-empty predicate (an empty condition
    such as [{}]) keeps every row: [all([])] is [True]. *)
Theorem selection_no_predicate_keeps_all :
  forall {Fl} (py_float : string -> option Fl) fl_gt fl_lt d q rel cond,
  lookup d (relation_part q) = Some rel -> brace_part q = Ok cond ->
  filter Fileread.nonempty (Fileread.parse_conditions cond) = [] ->
  Fileread.selection py_float fl_gt fl_lt d q = Ok (attributes rel :: data rel).
Proof.
  intros Fl py_float fl_gt fl_lt d q rel cond Hl Hb He.
  unfold Fileread.selection. rewrite Hb. simpl. rewrite Hl.
  rewrite filterM_all_true; [reflexivity|].
  intros r _. unfold Fileread.evaluate_conditions. rewrite He. reflexivity.
Qed.

Lemma selection_no_predicate_keeps_all_witness :
  Fileread.selection nat_float nat_gt nat_lt sample_db "SELE (EMP) { AND }"
    = Ok (attributes EMP :: data EMP).
Proof. apply (selection_no_predicate_keeps_all _ _ _ _ _ _ "AND"); reflexivity. Defined.

(** [Fileread.selection] on a relation with at least one row raises when
    some non-empty predicate does not split into exactly three tokens, for
    instance a condition mixing [AND] and [OR], which is split on [AND]
    only. *)
Theorem selection_malformed_predicate_raises :
  forall {Fl} (py_float : string -> option Fl) fl_gt fl_lt d q rel cond,
  lookup d (relation_part q) = Some rel -> brace_part q = Ok cond ->
  data rel <> [] ->
  (exists c, In c (filter Fileread.nonempty (Fileread.parse_conditions cond)) /\
             length (Py.split_ws c) <> 3) ->
  exists e, Fileread.selection py_float fl_gt fl_lt d q = Raise e.
Proof.
  intros Fl py_float fl_gt fl_lt d q rel cond Hl Hb Hne [c [Hc Hlen]].
  unfold Fileread.selection. rewrite Hb. simpl. rewrite Hl.
  destruct (data rel) as [|r rows]; [contradiction|]. simpl.
  unfold Fileread.evaluate_conditions.
  destruct (mapM_raise (Fileread.eval_one py_float fl_gt fl_lt d r) _ c ValueError Hc)
    as [e' ->].
  - unfold Fileread.eval_one.
    destruct (Py.split_ws c) as [|x [|y [|z [|w l]]]]; try reflexivity.
    simpl in Hlen. lia.
  - exists e'. reflexivity.
Qed.

Lemma selection_malformed_predicate_raises_witness :
  exists e, Fileread.selection nat_float nat_gt nat_lt sample_db
    "SELE (EMP) {salary > '60' AND id = '1' OR id = '2'}" = Raise e.
Proof.
  apply (selection_malformed_predicate_raises _ _ _ _ _ EMP
           "salary > '60' AND id = '1' OR id = '2'"); try reflexivity.
  - discriminate.
  - exists "id = '1' OR id = '2'". split; [simpl; tauto|simpl; lia].
Defined.

(** On a relation without rows, [Fileread.selection] returns the header
    whatever the condition (nothing is parsed or resolved), while
    [Newonetest.selection] still checks the predicate: [[]] when it has
    three tokens and names an attribute of the relation, [ValueError] when
    its attribute is not one. *)
Theorem selection_empty_relation :
  forall {Fl} (py_float : string -> option Fl) fl_gt fl_lt d q rel cond,
  lookup d (relation_part q) = Some rel -> brace_part q = Ok cond ->
  data rel = [] ->
  Fileread.selection py_float fl_gt fl_lt d q = Ok [attributes rel] /\
  (forall a op v, Py.split_ws cond = [a; op; v] -> In a (attributes rel) ->
     Newonetest.selection py_float fl_gt fl_lt d q = Ok []) /\
  (forall a op v, Py.split_ws cond = [a; op; v] -> ~ In a (attributes rel) ->
     Newonetest.selection py_float fl_gt fl_lt d q = Raise ValueError).
Proof.
  intros Fl py_float fl_gt fl_lt d q rel cond Hl Hb He.
  split; [|split].
  - unfold Fileread.selection. rewrite Hb. simpl. rewrite Hl, He. reflexivity.
  - intros a op v Hs Ha. unfold Newonetest.selection. rewrite Hb. simpl.
    rewrite Hl, Hs. destruct (index_of a (attributes rel)) eqn:E.
    + rewrite He. reflexivity.
    + apply index_of_none in E. contradiction.
  - intros a op v Hs Ha. unfold Newonetest.selection. rewrite Hb. simpl.
    rewrite Hl, Hs. apply index_of_none in Ha. rewrite Ha. reflexivity.
Qed.

Lemma selection_empty_relation_witness :
  Fileread.selection nat_float nat_gt nat_lt db_swapped "SELE (A) {z = '1'}"
    = Ok [["x"; "y"]] /\
  Newonetest.selection nat_float nat_gt nat_lt db_swapped "SELE (A) {z = '1'}"
    = Raise ValueError.
Proof.
  destruct (selection_empty_relation nat_float nat_gt nat_lt db_swapped
              "SELE (A) {z = '1'}" (mkRel ["x"; "y"] []) "z = '1'")
    as [H1 [_ H3]]; try reflexivity.
  split; [exact H1|]. apply (H3 "z" "=" "'1'"); [reflexivity|].
  simpl. intuition discriminate.
Defined.

(** [Fileread.crossproduct] raises [ValueError] unless its operand text
    contains exactly one ['*'] (no three-way products). *)
Theorem crossproduct_needs_one_star : forall d q,
  count_char "*" (relation_part q) <> 1 ->
  Fileread.crossproduct d q = Raise ValueError.
Proof.
  intros d q H. unfold Fileread.crossproduct.
  pose proof (split1_length "*" (relation_part q)) as L.
  destruct (Py.split "*" (relation_part q)) as [|l [|r [|x rest]]];
    simpl in L; try reflexivity. lia.
Qed.

Lemma crossproduct_needs_one_star_witness :
  Fileread.crossproduct sample_db "X (EMP * DEPT * EMP)" = Raise ValueError.
Proof. apply crossproduct_needs_one_star. vm_compute. discriminate. Defined.

(** [Fileread.union] raises [ValueError] unless its operand text contains
    exactly one ['U']: a relation name with a capital [U] in it cannot be
    used in a union. *)
Theorem union_needs_one_U : forall set_list d q,
  count_char "U" (relation_part q) <> 1 ->
  Fileread.union set_list d q = Raise ValueError.
Proof.
  intros set_list d q H. unfold Fileread.union.
  pose proof (split1_length "U" (relation_part q)) as L.
  destruct (Py.split "U" (relation_part q)) as [|l [|r [|x rest]]];
    simpl in L; try reflexivity. lia.
Qed.

Lemma union_needs_one_U_witness :
  Fileread.union nodup_rows (("EMP_US", EMP) :: sample_db) "U (EMP_US U EMP)"
    = Raise ValueError.
Proof. apply union_needs_one_U. vm_compute. discriminate. Defined.

(** [Newonetest.union] keeps results duplicate-free when both operands
    are, and returns the left result unchanged when every right row
    already occurs in it (so [q U q] is the result of [q]). *)
Theorem union_nodup_and_absorb :
  forall (execute_query : string -> result table) lq rq L R,
  execute_query lq = Ok L -> execute_query rq = Ok R ->
  (NoDup L -> NoDup R ->
     exists res, Newonetest.union execute_query lq rq = Ok res /\ NoDup res) /\
  ((forall x, In x R -> In x L) -> Newonetest.union execute_query lq rq = Ok L).
Proof.
  intros ex lq rq L R HL HR. unfold Newonetest.union. rewrite HL, HR. simpl.
  split.
  - intros NL NR. eexists. split; [reflexivity|].
    apply NoDup_app; [exact NL|apply NoDup_filter, NR|].
    intros x Hx Hf. apply filter_In in Hf as [_ Hf].
    apply negb_true_iff, UnionFacts.mem_false_iff in Hf. contradiction.
  - intros Hsub. rewrite (filter_all_false _ R); [rewrite app_nil_r; reflexivity|].
    intros x Hx. apply negb_false_iff. destruct (mem x L) eqn:E; [reflexivity|].
    apply UnionFacts.mem_false_iff in E. exfalso. apply E, Hsub, Hx.
Qed.

Lemma union_nodup_and_absorb_witness :
  (exists res,
     Newonetest.union (Newonetest.execute_query nat_float nat_gt nat_lt 10 sample_db)
       "SELE (EMP) {salary > '60'}" "SELE (EMP) {id = '1'}" = Ok res /\ NoDup res) /\
  Newonetest.union (Newonetest.execute_query nat_float nat_gt nat_lt 10 sample_db)
    "SELE (EMP) {salary > '10'}" "SELE (EMP) {salary > '60'}"
    = Ok [["1"; "Al"; "50"]; ["2"; "Bo"; "90"]].
Proof.
  split.
  - apply (proj1 (union_nodup_and_absorb
                    (Newonetest.execute_query nat_float nat_gt nat_lt 10 sample_db)
                    "SELE (EMP) {salary > '60'}" "SELE (EMP) {id = '1'}"
                    [["2"; "Bo"; "90"]] [["1"; "Al"; "50"]] eq_refl eq_refl)).
    + constructor; [intros []|constructor].
    + constructor; [intros []|constructor].
  - apply (proj2 (union_nodup_and_absorb
                    (Newonetest.execute_query nat_float nat_gt nat_lt 10 sample_db)
                    "SELE (EMP) {salary > '10'}" "SELE (EMP) {salary > '60'}"
                    [["1"; "Al"; "50"]; ["2"; "Bo"; "90"]] [["2"; "Bo"; "90"]]
                    eq_refl eq_refl)).
    intros x [<-|[]]. right. left. reflexivity.
Defined.

(** [Fileread.projection] on a single stored relation (no ['*'] in the
    operand) whose attributes include every requested one, and whose rows
    have one value per attribute: the header is the requested list and each
    row keeps the columns of the first occurrence of each requested name, in
    the requested order (repetitions included). *)
Theorem projection_columns : forall d q attrs_s rel,
  brace_part q = Ok attrs_s ->
  Py.contains "*" (relation_part q) = false ->
  lookup d (relation_part q) = Some rel ->
  (forall a, In a (map Py.strip (Py.split "," attrs_s)) -> In a (attributes rel)) ->
  (forall r, In r (data rel) -> length r = length (attributes rel)) ->
  Fileread.projection d q =
  Ok (map Py.strip (Py.split "," attrs_s) ::
      map (project_row (attributes rel) (map Py.strip (Py.split "," attrs_s)))
          (data rel)).
Proof.
  intros d q attrs_s rel Hb Hs Hl Ha Hr. unfold Fileread.projection.
  rewrite Hb. simpl bind. rewrite Hs, strip_relation_part, Hl. simpl bind.
  change (fun a => match index_of a (attributes rel) with
                   | Some i => Ok i | None => Raise ValueError end)
    with (col_index (attributes rel)).
  rewrite col_indices_ok by exact Ha. simpl bind.
  rewrite (mapM_ok_map _ (project_row (attributes rel)
                            (map Py.strip (Py.split "," attrs_s)))).
  - reflexivity.
  - intros r Hin. apply project_row_ok; [exact Ha|apply Hr, Hin].
Qed.

Lemma projection_columns_witness :
  Fileread.projection sample_db "PROJ (EMP) {salary, name, salary}" =
  Ok [["salary"; "name"; "salary"]; ["50"; "Al"; "50"]; ["90"; "Bo"; "90"]].
Proof.
  apply (projection_columns _ _ "salary, name, salary" EMP); try reflexivity.
  - intros a Ha. simpl in Ha. simpl. intuition (subst; auto).
  - intros r Hr. simpl in Hr. intuition (subst; reflexivity).
Defined.

(** Both [projection]s raise [ValueError] on a single relation (no ['*'])
    that is not stored, or that lacks one of the requested attributes, even
    when it has no rows. *)
Theorem projection_missing_raises : forall d q attrs_s,
  brace_part q = Ok attrs_s ->
  Py.contains "*" (relation_part q) = false ->
  (lookup d (relation_part q) = None \/
   exists rel, lookup d (relation_part q) = Some rel /\
     exists a, In a (map Py.strip (Py.split "," attrs_s)) /\ ~ In a (attributes rel)) ->
  Fileread.projection d q = Raise ValueError /\
  Newonetest.projection d q = Raise ValueError.
Proof.
  intros d q attrs_s Hb Hs H. unfold Fileread.projection, Newonetest.projection.
  rewrite Hb. simpl bind. rewrite Hs, strip_relation_part.
  destruct H as [Hl|[rel [Hl Hm]]]; rewrite Hl; simpl bind; [split; reflexivity|].
  change (fun a => match index_of a (attributes rel) with
                   | Some i => Ok i | None => Raise ValueError end)
    with (col_index (attributes rel)).
  rewrite col_indices_missing by exact Hm. split; reflexivity.
Qed.

Lemma projection_missing_raises_witness :
  Fileread.projection db_swapped "PROJ (A) {x, w}" = Raise ValueError /\
  Newonetest.projection db_swapped "PROJ (A) {x, w}" = Raise ValueError.
Proof.
  apply (projection_missing_raises _ _ "x, w"); try reflexivity.
  right. exists (mkRel ["x"; "y"] []). split; [reflexivity|].
  exists "w". split; [simpl; tauto|simpl; intuition discriminate].
Defined.

(** Without a ['*'] in the operand, [Fileread.projection] is
    [Newonetest.projection] with the requested attribute list as header:
    the same rows, and the same exceptions. *)
Theorem projection_files_agree : forall d q,
  Py.contains "*" (relation_part q) = false ->
  Fileread.projection d q =
  (attrs_s <- brace_part q ;; rows <- Newonetest.projection d q ;;
   Ok (map Py.strip (Py.split "," attrs_s) :: rows)).
Proof.
  intros d q Hs. unfold Fileread.projection, Newonetest.projection.
  destruct (brace_part q) as [attrs_s|e]; simpl bind; [|reflexivity].
  rewrite Hs, strip_relation_part.
  destruct (lookup d (relation_part q)) as [rel|]; simpl bind; [|reflexivity].
  destruct (mapM (B:=nat) _ (map Py.strip (Py.split "," attrs_s))) as [idx|e];
    simpl bind; [|reflexivity].
  destruct (mapM (fun r => mapM (Py.getitem r) idx) (data rel)); reflexivity.
Qed.

Lemma projection_files_agree_witness :
  Fileread.projection sample_db "PROJ (EMP) {name}" =
  (attrs_s <- brace_part "PROJ (EMP) {name}" ;;
   rows <- Newonetest.projection sample_db "PROJ (EMP) {name}" ;;
   Ok (map Py.strip (Py.split "," attrs_s) :: rows)).
Proof. apply projection_files_agree. reflexivity. Defined.

(** For a single predicate (no [AND], no [OR]) on an attribute of the
    source relation, when no relation stored before it has that name or that
    attribute, [Fileread.selection] is [Newonetest.selection] with the
    relation's header in front: the same rows and the same exceptions. *)
Theorem selection_files_agree :
  forall {Fl} (py_float : string -> option Fl) fl_gt fl_lt d pre post q rel
         cond a op v,
  d = pre ++ (relation_part q, rel) :: post ->
  (forall p, In p pre -> fst p <> relation_part q /\ ~ In a (attributes (snd p))) ->
  brace_part q = Ok cond ->
  Py.contains "AND" cond = false -> Py.contains "OR" cond = false ->
  Py.split_ws cond = [a; op; v] -> In a (attributes rel) ->
  Fileread.selection py_float fl_gt fl_lt d q =
  (rows <- Newonetest.selection py_float fl_gt fl_lt d q ;;
   Ok (attributes rel :: rows)).
Proof.
  intros Fl py_float fl_gt fl_lt d pre post q rel cond a op v Hd Hpre Hb Hand Hor
    Hs Ha.
  assert (Hl : lookup d (relation_part q) = Some rel).
  { rewrite Hd. apply lookup_app. intros p Hp. apply (Hpre p Hp). }
  destruct (SelectionFacts.index_of_in a (attributes rel) Ha) as [i [Ei _]].
  assert (Hg : Fileread.get_attribute_index d a = Ok i).
  { rewrite Hd. apply get_attribute_index_app; [|exact Ei].
    intros p Hp. apply (Hpre p Hp). }
  assert (Hc : Fileread.nonempty cond = true).
  { destruct cond; [discriminate|reflexivity]. }
  unfold Fileread.selection, Newonetest.selection. rewrite Hb. simpl bind.
  rewrite Hl, Hs, Ei. unfold Fileread.parse_conditions. rewrite Hand, Hor.
  rewrite (filterM_ext
             (fun r => Fileread.evaluate_conditions py_float fl_gt fl_lt d r [cond])
             (fun r => v0 <- Py.getitem r i ;;
             evaluate_condition py_float fl_gt fl_lt v0 op (Py.strip_quote v))).
  - reflexivity.
  - intros r _. unfold Fileread.evaluate_conditions. simpl filter. rewrite Hc.
    unfold mapM, Fileread.eval_one. rewrite Hs, Hg. simpl bind.
    destruct (Py.getitem r i); simpl bind; [|reflexivity].
    destruct (evaluate_condition _ _ _ _ _ _); simpl; [|reflexivity].
    rewrite andb_true_r. reflexivity.
Qed.

Lemma selection_files_agree_witness :
  Fileread.selection nat_float nat_gt nat_lt sample_db "SELE (EMP) {salary > '60'}" =
  (rows <- Newonetest.selection nat_float nat_gt nat_lt sample_db
             "SELE (EMP) {salary > '60'}" ;;
   Ok (attributes EMP :: rows)).
Proof.
  apply (selection_files_agree _ _ _ _ [] [("DEPT", DEPT)] _ EMP
           "salary > '60'" "salary" ">" "'60'"); try reflexivity.
  - intros p [].
  - simpl. tauto.
Defined.

(** [load_relations]: a [.csv] file read after the others sets the relation
    named after it (file name without [.csv]) to its header and remaining
    rows, replacing an earlier one of that name, and leaves every other
    relation as it was. *)
Theorem load_relations_last_file_wins : forall files d d' f hdr rest,
  Py_endswith ".csv" f = true -> load_relations files d = Some d' ->
  exists d'', load_relations (files ++ [(f, hdr :: rest)]) d = Some d'' /\
    lookup d'' (relation_name_of f) = Some (mkRel hdr rest) /\
    forall k, k <> relation_name_of f -> lookup d'' k = lookup d' k.
Proof.
  intros files d d' f hdr rest Hf Hl. rewrite load_relations_app, Hl. simpl.
  rewrite Hf. eexists. split; [reflexivity|]. split.
  - rewrite dict_set_lookup, String.eqb_refl. reflexivity.
  - intros k Hk. rewrite dict_set_lookup.
    destruct (String.eqb (relation_name_of f) k) eqn:E; [|reflexivity].
    apply String.eqb_eq in E. congruence.
Qed.

Lemma load_relations_last_file_wins_witness :
  exists d'', load_relations ([("EMP.csv", ["id"] :: [["1"]]); ("notes.txt", [])]
                              ++ [("EMP.csv", [["key"]; ["7"]])]) [] = Some d'' /\
    lookup d'' (relation_name_of "EMP.csv") = Some (mkRel ["key"] [["7"]]) /\
    forall k, k <> relation_name_of "EMP.csv" ->
      lookup d'' k = lookup [("EMP", mkRel ["id"] [["1"]])] k.
Proof. apply load_relations_last_file_wins; reflexivity. Defined.

(** [load_relations] ignores every directory entry whose name does not end
    in [.csv]. *)
Theorem load_relations_only_csv : forall files d,
  load_relations files d =
  load_relations (filter (fun p => Py_endswith ".csv" (fst p)) files) d.
Proof.
  intros files; induction files as [|[fn recs] files IH]; intros d; simpl;
    [reflexivity|].
  destruct (Py_endswith ".csv" fn) eqn:E; simpl; rewrite ?E; [|apply IH].
  destruct recs; [reflexivity|apply IH].
Qed.

(** [load_relations] fails ([next(reader)] raises [StopIteration]) exactly
    when some [.csv] file has no record at all, wherever it is in the
    directory listing. *)
Theorem load_relations_fails_iff_empty_csv : forall files d,
  load_relations files d = None <->
  exists f, In (f, []) files /\ Py_endswith ".csv" f = true.
Proof.
  intros files; induction files as [|[fn recs] files IH]; intros d; simpl.
  - split; [discriminate|]. intros [f [[] _]].
  - destruct (Py_endswith ".csv" fn) eqn:E.
    + destruct recs as [|hdr rest].
      * split; [intros _; exists fn; split; [left; reflexivity|exact E]|reflexivity].
      * rewrite IH. split; intros [f [Hin Hf]].
        -- exists f. split; [right; exact Hin|exact Hf].
        -- destruct Hin as [Hin|Hin]; [discriminate|]. exists f. split; assumption.
    + rewrite IH. split; intros [f [Hin Hf]].
      * exists f. split; [right; exact Hin|exact Hf].
      * destruct Hin as [Hin|Hin]; [injection Hin as -> _; congruence|].
        exists f. split; assumption.
Qed.

(** After [load_relations], the dictionary holds each name once (when it
    did before), and its names are the earlier ones and those of the
    [.csv] files. *)
Theorem load_relations_keys : forall files d d',
  NoDup (map fst d) -> load_relations files d = Some d' ->
  NoDup (map fst d') /\
  forall k, In k (map fst d') <->
    In k (map fst d) \/
    exists f recs, In (f, recs) files /\ Py_endswith ".csv" f = true /\
                   k = relation_name_of f.
Proof.
  intros files; induction files as [|[fn recs] files IH]; intros d d' Hn Hl; simpl in Hl.
  - injection Hl as <-. split; [exact Hn|]. intros k. split; [tauto|].
    intros [H|[f [recs [[] _]]]]. exact H.
  - destruct (Py_endswith ".csv" fn) eqn:E.
    + destruct recs as [|hdr rest]; [discriminate|].
      destruct (IH _ _ (dict_set_nodup d _ (mkRel hdr rest) Hn) Hl) as [H1 H2].
      split; [exact H1|]. intros k. rewrite H2, dict_set_keys. split.
      * intros [[->|H]|[f [recs [Hin [Hf ->]]]]].
        -- right. exists fn, (hdr :: rest). split; [left; reflexivity|split; [exact E|reflexivity]].
        -- left. exact H.
        -- right. exists f, recs. split; [right; exact Hin|split; [exact Hf|reflexivity]].
      * intros [H|[f [recs [[Hin|Hin] [Hf ->]]]]].
        -- left. right. exact H.
        -- injection Hin as <- <-. left. left. reflexivity.
        -- right. exists f, recs. split; [exact Hin|split; [exact Hf|reflexivity]].
    + destruct (IH _ _ Hn Hl) as [H1 H2]. split; [exact H1|]. intros k. rewrite H2.
      split.
      * intros [H|[f [recs' [Hin [Hf ->]]]]]; [left; exact H|].
        right. exists f, recs'. split; [right; exact Hin|split; [exact Hf|reflexivity]].
      * intros [H|[f [recs' [[Hin|Hin] [Hf ->]]]]]; [left; exact H| |].
        -- injection Hin as -> ->. congruence.
        -- right. exists f, recs'. split; [exact Hin|split; [exact Hf|reflexivity]].
Qed.

Lemma load_relations_keys_witness :
  NoDup (map fst [("EMP", mkRel ["id"] [])]) /\
  NoDup (map fst [("EMP", mkRel ["key"] [["7"]]); ("DEPT", mkRel ["d"] [])]) /\
  forall k, In k (map fst [("EMP", mkRel ["key"] [["7"]]); ("DEPT", mkRel ["d"] [])]) <->
    In k (map fst [("EMP", mkRel ["id"] [])]) \/
    exists f recs, In (f, recs) [("EMP.csv", [["key"]; ["7"]]); ("DEPT.csv", [["d"]]);
                                 ("x.txt", [])] /\
                   Py_endswith ".csv" f = true /\ k = relation_name_of f.
Proof.
  assert (N : NoDup (map fst [("EMP", mkRel ["id"] [])])).
  { constructor; [intros []|constructor]. }
  split; [exact N|].
  apply (load_relations_keys _ _ _ N). reflexivity.
Defined.

(** [Fileread.evaluate_query], on a stripped query, is the dispatcher of
    [process_queries_from_file] with every exception turned into [None]:
    the nested evaluator behaves like the top level in all else, and never
    raises. *)
Theorem evaluate_query_catches_dispatch :
  forall {Fl} (py_float : string -> option Fl) fl_gt fl_lt set_list n d q,
  Py.strip q = q ->
  Fileread.evaluate_query py_float fl_gt fl_lt set_list (S n) d q =
  match Fileread.dispatch py_float fl_gt fl_lt set_list n d q with
  | Ok v => Ok v
  | Raise _ => Ok None
  end.
Proof.
  intros Fl py_float fl_gt fl_lt set_list n d q Hq.
  cbn [Fileread.evaluate_query]. rewrite Hq. unfold Fileread.dispatch.
  destruct (Py.startswith "SELE" q); [reflexivity|].
  destruct (Py.startswith "PROJ" q); [reflexivity|].
  destruct (Py.startswith "X" q); [reflexivity|].
  destruct (Py.startswith "JOIN" q); [reflexivity|].
  destruct (Py.startswith "*" q); [reflexivity|].
  destruct (Py.startswith "U" q); [reflexivity|].
  destruct (Py.startswith "-" q); [reflexivity|].
  destruct (Py.startswith "," q); [reflexivity|].
  destruct (Py.startswith "OR" q); reflexivity.
Qed.

Lemma evaluate_query_catches_dispatch_witness :
  Fileread.evaluate_query nat_float nat_gt nat_lt nodup_rows 5 sample_db "SELE (NOPE) {x = '1'}" =
  match Fileread.dispatch nat_float nat_gt nat_lt nodup_rows 4 sample_db "SELE (NOPE) {x = '1'}" with
  | Ok v => Ok v
  | Raise _ => Ok None
  end.
Proof. apply evaluate_query_catches_dispatch. reflexivity. Defined.

(** [Newonetest.execute_query] unwraps one pair of parentheses around the
    whole query at the same recursion depth: wrapping a stripped query that
    is not itself wrapped changes nothing. *)
Theorem execute_query_paren_transparent :
  forall {Fl} (py_float : string -> option Fl) fl_gt fl_lt n d q,
  Py.strip q = q -> (Py.startswith "(" q && Py_endswith ")" q) = false ->
  Newonetest.execute_query py_float fl_gt fl_lt (S n) d ("(" ++ q ++ ")")%string =
  Newonetest.execute_query py_float fl_gt fl_lt (S n) d q.
Proof.
  intros Fl py_float fl_gt fl_lt n d q Hs Hw.
  cbn [Newonetest.execute_query].
  rewrite wrap_endswith, wrap_inner, Hs, Hw. reflexivity.
Qed.

Lemma execute_query_paren_transparent_witness :
  Newonetest.execute_query nat_float nat_gt nat_lt 5 sample_db
    ("(" ++ "SELE (EMP) {salary > '60'}" ++ ")")%string =
  Newonetest.execute_query nat_float nat_gt nat_lt 5 sample_db "SELE (EMP) {salary > '60'}".
Proof. apply execute_query_paren_transparent; reflexivity. Defined.

(** The operand text that the operators extract never contains a
    parenthesis, so extracting it again gives it back. *)
Theorem relation_part_no_parens : forall q,
  Py.contains "(" (relation_part q) = false /\
  Py.contains ")" (relation_part q) = false /\
  relation_part (relation_part q) = relation_part q.
Proof.
  intros q. destruct (relation_part_parens q) as [H1 H2].
  split; [exact H1|split; [exact H2|apply relation_part_idem]].
Qed.

(** [Fileread.projection] over a cross product of two stored relations
    (["PROJ (A * B) {...}"]): the columns are looked up in the combined
    header [A.attributes + B.attributes], so a name both relations have
    refers to [A]'s column, and the rows are the projected Cartesian
    product, left row varying slowest. *)
Theorem projection_over_crossproduct : forall d q attrs_s l r A B,
  brace_part q = Ok attrs_s ->
  Py.split "*" (relation_part q) = [l; r] ->
  lookup d (Py.strip l) = Some A -> lookup d (Py.strip r) = Some B ->
  (forall a, In a (map Py.strip (Py.split "," attrs_s)) ->
     In a (attributes A ++ attributes B)) ->
  (forall x, In x (data A) -> length x = length (attributes A)) ->
  (forall y, In y (data B) -> length y = length (attributes B)) ->
  Fileread.projection d q =
  Ok (map Py.strip (Py.split "," attrs_s) ::
      map (project_row (attributes A ++ attributes B)
                       (map Py.strip (Py.split "," attrs_s)))
          (flat_map (fun x => map (fun y => x ++ y) (data B)) (data A))).
Proof.
  intros d q attrs_s l r A B Hb Hs HA HB Ha HlA HlB.
  assert (Hstar : Py.contains "*" (relation_part q) = true).
  { destruct (Py.contains "*" (relation_part q)) eqn:E; [reflexivity|].
    change "*" with (sep1 "*"%char) in Hs, E.
    rewrite split1_notin in Hs by exact E. discriminate. }
  unfold Fileread.projection. rewrite Hb. simpl bind. rewrite Hstar.
  unfold Fileread.crossproduct. rewrite relation_part_idem, Hs.
  unfold Fileread.get_relation_data. rewrite HA, HB. simpl bind.
  change (fun a => match index_of a (attributes A ++ attributes B) with
                   | Some i => Ok i | None => Raise ValueError end)
    with (col_index (attributes A ++ attributes B)).
  rewrite col_indices_ok by exact Ha. simpl bind.
  rewrite (mapM_ok_map _ (project_row (attributes A ++ attributes B)
                            (map Py.strip (Py.split "," attrs_s)))).
  - reflexivity.
  - intros z Hz. apply project_row_ok; [exact Ha|].
    apply in_flat_map in Hz as [x [Hx Hz]]. apply in_map_iff in Hz as [y [<- Hy]].
    rewrite !length_app, (HlA x Hx), (HlB y Hy). reflexivity.
Qed.

Lemma projection_over_crossproduct_witness :
  Fileread.projection sample_db "PROJ (EMP * DEPT) {dname, id, name}" =
  Ok [["dname"; "id"; "name"]; ["Eng"; "1"; "Al"]; ["Eng"; "2"; "Bo"]].
Proof.
  apply (projection_over_crossproduct _ _ "dname, id, name" "EMP " " DEPT" EMP DEPT);
    try reflexivity.
  - intros a Ha. simpl in Ha. simpl. intuition (subst; auto 10).
  - intros x Hx. simpl in Hx. intuition (subst; reflexivity).
  - intros y Hy. simpl in Hy. intuition (subst; reflexivity).
Defined.

(** A [>] or [<] predicate on a value that [float] cannot parse makes the
    whole [Newonetest.selection] fail, not just skip that row. *)
Theorem selection_non_numeric_raises :
  forall {Fl} (py_float : string -> option Fl) fl_gt fl_lt d q rel cond a op v i r x,
  lookup d (relation_part q) = Some rel -> brace_part q = Ok cond ->
  Py.split_ws cond = [a; op; v] -> (op = ">" \/ op = "<") ->
  index_of a (attributes rel) = Some i ->
  In r (data rel) -> nth_error r i = Some x -> py_float x = None ->
  exists e, Newonetest.selection py_float fl_gt fl_lt d q = Raise e.
Proof.
  intros Fl py_float fl_gt fl_lt d q rel cond a op v i r x Hl Hb Hs Hop Hi Hr Hx Hf.
  unfold Newonetest.selection. rewrite Hb. simpl bind. rewrite Hl, Hs, Hi.
  revert Hr. generalize (data rel) as rows. intros rows; induction rows as [|r' rows IH];
    intros Hr; [destruct Hr|]. simpl filterM.
  destruct (Py.getitem r' i) as [y|e] eqn:Ey; simpl bind; [|exists e; reflexivity].
  destruct Hr as [<-|Hr].
  - unfold Py.getitem in Ey. rewrite Hx in Ey. injection Ey as <-.
    exists ValueError. unfold evaluate_condition, to_float. rewrite Hf.
    destruct Hop as [->| ->]; reflexivity.
  - destruct (evaluate_condition py_float fl_gt fl_lt y op (Py.strip_quote v));
      simpl bind; [|eexists; reflexivity].
    destruct (IH Hr) as [e ->]. exists e. reflexivity.
Qed.

Lemma selection_non_numeric_raises_witness :
  exists e, Newonetest.selection nat_float nat_gt nat_lt
    [("P", mkRel ["id"; "salary"] [["1"; "40"]; ["2"; "n/a"]; ["3"; "70"]])]
    "SELE (P) {salary > '50'}" = Raise e.
Proof.
  apply (selection_non_numeric_raises _ _ _ _ _
           (mkRel ["id"; "salary"] [["1"; "40"]; ["2"; "n/a"]; ["3"; "70"]])
           "salary > '50'" "salary" ">" "'50'" 1 ["2"; "n/a"] "n/a");
    try reflexivity.
  - left. reflexivity.
  - simpl. tauto.
Defined.

End Extras.
